(** * Nunno Finance backend: the price-history pipeline and the chat endpoints

    A shallow embedding of [main.py].  Python dictionaries are association
    lists in insertion order, exceptions are an error monad, the process-wide
    service handles are [option] values ([None] when construction failed at
    start-up), and the pseudo-random generator is threaded explicitly.

    Prices are Python floats in the source.  The summary and the chart are
    first modelled over rationals ([Q]) with exact arithmetic, where the only
    arithmetic fault is the [ZeroDivisionError] of float division; the module
    [Float64] then embeds the price-history handler over IEEE 754 doubles,
    with overflow and NaN, up to the rendering of the response.  Timestamps
    are the naive (timezone-free) [pandas.Timestamp] values of the candle
    index.  The [print] calls of the handlers write to the console only and
    are left out. *)

From Stdlib Require Import NArith ZArith QArith Qminmax List String Ascii Bool Lia Arith Sorted.
From Stdlib Require Import SpecFloat.
Import ListNotations.
Local Open Scope string_scope.

(** ** Exceptions and the error monad *)

Module Exn.

(** The Python exceptions the handlers can see.  [HTTPException] is the
    FastAPI class; it derives from [Exception], as do all the others, so a
    bare [except Exception] catches every constructor below. *)
Inductive exn : Type :=
| HTTPException (status_code : Z) (detail : string)
| AttributeError (msg : string)
| ZeroDivisionError (msg : string)
| KeyError (msg : string)
| IndexError (msg : string)
| UpstreamError (msg : string).

Inductive result (A : Type) : Type :=
| Ok (a : A)
| Raise (e : exn).
Arguments Ok {A} a.
Arguments Raise {A} e.

Definition bind {A B : Type} (m : result A) (k : A -> result B) : result B :=
  match m with
  | Ok a => k a
  | Raise e => Raise e
  end.

End Exn.
Export Exn.

Declare Scope py_scope.
Notation "x <- m ;; k" := (bind m (fun x => k))
  (at level 61, m at next level, right associativity) : py_scope.
Notation "m ;;; k" := (bind m (fun _ => k))
  (at level 61, right associativity) : py_scope.
Local Open Scope py_scope.

(** ** JSON values: what a handler returns *)

Local Unset Elimination Schemes.
Inductive json : Type :=
| JNum (q : Q)
| JStr (s : string)
| JBool (b : bool)
| JList (l : list json)
| JDict (kvs : list (string * json)).
Local Set Elimination Schemes.

(** Dictionary lookup by key, first binding wins (keys are distinct in every
    literal of the source). *)
Fixpoint lookup (k : string) (kvs : list (string * json)) : option json :=
  match kvs with
  | [] => None
  | (k', v) :: rest => if String.eqb k k' then Some v else lookup k rest
  end.

Definition keys (j : json) : list string :=
  match j with
  | JDict kvs => map fst kvs
  | _ => []
  end.

Definition get (k : string) (j : json) : option json :=
  match j with
  | JDict kvs => lookup k kvs
  | _ => None
  end.

(** ** Timeframe Resolver ([timeframe_map] and [.get] with a default) *)

Record Config : Type := mkConfig { interval : string; limit : Z }.

Definition timeframe_map : list (string * Config) :=
  [ ("24H", mkConfig "15m" 96);
    ("7D",  mkConfig "1h"  168);
    ("30D", mkConfig "4h"  180);
    ("1Y",  mkConfig "1d"  365) ].

(** [d.get(k, default)] *)
Fixpoint dict_get {V : Type} (d : list (string * V)) (k : string) (default : V) : V :=
  match d with
  | [] => default
  | (k', v) :: rest => if String.eqb k k' then v else dict_get rest k default
  end.

(** [d[k]], which raises [KeyError] on a missing key. *)
Fixpoint dict_index {V : Type} (d : list (string * V)) (k : string) : result V :=
  match d with
  | [] => Raise (KeyError k)
  | (k', v) :: rest => if String.eqb k k' then Ok v else dict_index rest k
  end.

(** [config = timeframe_map.get(timeframe, timeframe_map["24H"])]: the default
    is evaluated first, then the lookup. *)
Definition resolve_timeframe (timeframe : string) : result Config :=
  default <- dict_index timeframe_map "24H" ;;
  Ok (dict_get timeframe_map timeframe default).

(** The resolver as the specification words it: an enumerated table with the
    24H entry as the fallback. *)
Definition resolver_table (timeframe : string) : Config :=
  if String.eqb timeframe "24H" then mkConfig "15m" 96
  else if String.eqb timeframe "7D" then mkConfig "1h" 168
  else if String.eqb timeframe "30D" then mkConfig "4h" 180
  else if String.eqb timeframe "1Y" then mkConfig "1d" 365
  else mkConfig "15m" 96.

(** ** Timestamps: the fields of a naive [pandas.Timestamp] *)

Module Datetime.

Local Open Scope N_scope.

Record Timestamp : Type := mkTimestamp {
  year : N; month : N; day : N;
  hour : N; minute : N; second : N;
  microsecond : N; nanosecond : N
}.

(** CPython's calendar helpers ([_is_leap], [_days_in_month],
    [_days_before_year], [_days_before_month], [_ymd2ord]). *)
Definition is_leap (y : N) : bool :=
  (y mod 4 =? 0) && (negb (y mod 100 =? 0) || (y mod 400 =? 0)).

Definition DAYS_IN_MONTH : list N := [31; 28; 31; 30; 31; 30; 31; 31; 30; 31; 30; 31].

Definition days_in_month (y m : N) : N :=
  if (m =? 2) && is_leap y then 29 else nth (N.to_nat (m - 1)) DAYS_IN_MONTH 0.

Definition days_before_year (y : N) : N :=
  let y := y - 1 in y * 365 + y / 4 - y / 100 + y / 400.

Definition days_before_month (y m : N) : N :=
  fold_right N.add 0 (firstn (N.to_nat (m - 1)) DAYS_IN_MONTH)
  + (if (2 <? m) && is_leap y then 1 else 0).

Definition ymd2ord (y m d : N) : N :=
  days_before_year y + days_before_month y m + d.

(** [weekday()]: Monday is 0. *)
Definition weekday (t : Timestamp) : N :=
  (ymd2ord (year t) (month t) (day t) + 6) mod 7.

Definition day_abbr : list string := ["Mon"; "Tue"; "Wed"; "Thu"; "Fri"; "Sat"; "Sun"].
Definition month_abbr : list string :=
  ["Jan"; "Feb"; "Mar"; "Apr"; "May"; "Jun"; "Jul"; "Aug"; "Sep"; "Oct"; "Nov"; "Dec"].

(** The range of a [pandas.Timestamp] (years 1677 to 2262) and of the
    calendar fields. *)
Definition valid (t : Timestamp) : Prop :=
  1677 <= year t <= 2262 /\ 1 <= month t <= 12 /\
  1 <= day t <= days_in_month (year t) (month t) /\
  hour t < 24 /\ minute t < 60 /\ second t < 60 /\
  microsecond t < 1000000 /\ nanosecond t < 1000.

Definition validb (t : Timestamp) : bool :=
  (1677 <=? year t) && (year t <=? 2262) && (1 <=? month t) && (month t <=? 12)
  && (1 <=? day t) && (day t <=? days_in_month (year t) (month t))
  && (hour t <? 24) && (minute t <? 60) && (second t <? 60)
  && (microsecond t <? 1000000) && (nanosecond t <? 1000).

(** Timestamps compare by their value, the nanoseconds since the start of
    the proleptic calendar. *)
Definition value (t : Timestamp) : N :=
  (((ymd2ord (year t) (month t) (day t) * 24 + hour t) * 60 + minute t) * 60
     + second t) * 1000000000
  + microsecond t * 1000 + nanosecond t.

Definition lt (a b : Timestamp) : Prop := value a < value b.

(** *** Decimal output *)

Definition digit (d : N) : ascii := ascii_of_N (48 + d).

(** The [w] low decimal digits of [n], most significant first. *)
Fixpoint pad (w : nat) (n : N) : string :=
  match w with
  | O => EmptyString
  | S w' => String (digit (n / 10 ^ N.of_nat w')) (pad w' (n mod 10 ^ N.of_nat w'))
  end.

Fixpoint decimal_fuel (fuel : nat) (n : N) (acc : string) : string :=
  match fuel with
  | O => acc
  | S f =>
      let acc' := String (digit (n mod 10)) acc in
      if n / 10 =? 0 then acc' else decimal_fuel f (n / 10) acc'
  end.

(** [str(n)] for a non-negative integer. *)
Definition decimal (n : N) : string := decimal_fuel (S (N.to_nat (N.log2 n))) n EmptyString.

(** [f"{n:0{w}d}"]: zero-padded to [w] places, longer when [n] needs it. *)
Definition format_0d (w : nat) (n : N) : string :=
  if n <? 10 ^ N.of_nat w then pad w n else decimal n.

(** *** [strftime] over the directives the handler uses (C locale) *)

Definition directive (c : ascii) (t : Timestamp) : string :=
  if Ascii.eqb c "H" then format_0d 2 (hour t)
  else if Ascii.eqb c "M" then format_0d 2 (minute t)
  else if Ascii.eqb c "d" then format_0d 2 (day t)
  else if Ascii.eqb c "Y" then format_0d 4 (year t)
  else if Ascii.eqb c "a" then nth (N.to_nat (weekday t)) day_abbr EmptyString
  else if Ascii.eqb c "b" then nth (N.to_nat (month t - 1)) month_abbr EmptyString
  else if Ascii.eqb c "%" then "%"%string
  else String "%" (String c EmptyString).

Fixpoint strftime (fmt : string) (t : Timestamp) : string :=
  match fmt with
  | EmptyString => EmptyString
  | String c rest =>
      if Ascii.eqb c "%" then
        match rest with
        | String d rest' => (directive d t ++ strftime rest' t)%string
        | EmptyString => "%"%string
        end
      else String c (strftime rest t)
  end.

(** *** [isoformat] of a naive timestamp

    [datetime.isoformat] prints the microseconds when they are not zero;
    [Timestamp.isoformat] then appends the nanoseconds when they are not
    zero, as three more digits or, after zero microseconds, as a nine-digit
    fraction. *)
Definition datetime_isoformat (t : Timestamp) : string :=
  (format_0d 4 (year t) ++ "-" ++ format_0d 2 (month t) ++ "-" ++ format_0d 2 (day t)
   ++ "T" ++ format_0d 2 (hour t) ++ ":" ++ format_0d 2 (minute t) ++ ":"
   ++ format_0d 2 (second t)
   ++ (if N.eqb (microsecond t) 0 then "" else "." ++ format_0d 6 (microsecond t)))%string.

Definition isoformat (t : Timestamp) : string :=
  let base := datetime_isoformat t in
  if N.eqb (nanosecond t) 0 then base
  else if N.eqb (microsecond t) 0 then (base ++ "." ++ format_0d 9 (nanosecond t))%string
  else (base ++ format_0d 3 (nanosecond t))%string.

End Datetime.

(** ** Reading a canonical date-time back (the client side of the tooltip)

    An ISO 8601 reader for [YYYY-MM-DDTHH:MM:SS] with an optional fraction of
    one to nine digits; it rejects trailing input and fields out of range. *)

Module IsoParse.

Import Datetime.
Local Open Scope N_scope.

Definition digit_val (c : ascii) : option N :=
  let n := N_of_ascii c in
  if (48 <=? n) && (n <=? 57) then Some (n - 48) else None.

(** Exactly [w] digits, most significant first. *)
Fixpoint read_fixed (w : nat) (s : string) (acc : N) : option (N * string) :=
  match w with
  | O => Some (acc, s)
  | S w' =>
      match s with
      | String c r =>
          match digit_val c with
          | Some d => read_fixed w' r (acc * 10 + d)
          | None => None
          end
      | EmptyString => None
      end
  end.

(** The longest run of digits, with its length. *)
Fixpoint read_run (s : string) (acc : N) (cnt : nat) : N * nat * string :=
  match s with
  | String c r =>
      match digit_val c with
      | Some d => read_run r (acc * 10 + d) (S cnt)
      | None => (acc, cnt, s)
      end
  | EmptyString => (acc, cnt, s)
  end.

Definition expect (c : ascii) (s : string) : option string :=
  match s with
  | String c' r => if Ascii.eqb c c' then Some r else None
  | EmptyString => None
  end.

Definition obind {A B : Type} (m : option A) (k : A -> option B) : option B :=
  match m with
  | Some a => k a
  | None => None
  end.

Local Notation "' p <-? m ;; k" := (obind m (fun p => k))
  (at level 61, p pattern, m at next level, right associativity).
Local Notation "x <-? m ;; k" := (obind m (fun x => k))
  (at level 61, m at next level, right associativity).

(** The fraction of a second, in nanoseconds. *)
Definition read_fraction (s : string) : option (N * string) :=
  match s with
  | String c r =>
      if Ascii.eqb c "." then
        let '(v, k, rest) := read_run r 0 0 in
        if (Nat.leb 1 k && Nat.leb k 9)%bool
        then Some (v * 10 ^ N.of_nat (9 - k), rest)
        else None
      else Some (0, s)
  | EmptyString => Some (0, s)
  end.

Definition fromisoformat (s : string) : option Timestamp :=
  '(y, s) <-? read_fixed 4 s 0 ;;
  s <-? expect "-" s ;;
  '(mo, s) <-? read_fixed 2 s 0 ;;
  s <-? expect "-" s ;;
  '(d, s) <-? read_fixed 2 s 0 ;;
  s <-? expect "T" s ;;
  '(h, s) <-? read_fixed 2 s 0 ;;
  s <-? expect ":" s ;;
  '(mi, s) <-? read_fixed 2 s 0 ;;
  s <-? expect ":" s ;;
  '(se, s) <-? read_fixed 2 s 0 ;;
  '(ns, s) <-? read_fraction s ;;
  let t := mkTimestamp y mo d h mi se (ns / 1000) (ns mod 1000) in
  match s with
  | EmptyString => if validb t then Some t else None
  | String _ _ => None
  end.

End IsoParse.

Import Datetime.

(** [str(e)], used for the [detail] of the 500 responses; Starlette prints an
    [HTTPException] as its status code, a colon and its detail, and a
    [KeyError] prints the [repr] of its key. *)
Definition str (e : exn) : string :=
  match e with
  | HTTPException c d => decimal (Z.to_N c) ++ ": " ++ d
  | AttributeError m => m
  | ZeroDivisionError m => m
  | KeyError m => "'" ++ m ++ "'"
  | IndexError m => m
  | UpstreamError m => m
  end.

(** ** Candles: the rows of the data frame the fetch function returns *)

Record Candle : Type := mkCandle {
  index : Timestamp;
  Open : Q; High : Q; Low : Q; Close : Q; Volume : Q
}.

Definition DataFrame : Type := list Candle.

(** ** Chart Formatter: the [for index, row in df.iterrows()] loop *)

Definition time_label (timeframe : string) (idx : Timestamp) : string :=
  if String.eqb timeframe "24H" then strftime "%H:%M" idx
  else if String.eqb timeframe "7D" then strftime "%a %H:%M" idx
  else if String.eqb timeframe "30D" then strftime "%b %d" idx
  else strftime "%b %d %Y" idx.

Definition chart_point (timeframe : string) (row : Candle) : json :=
  JDict [ ("time", JStr (time_label timeframe (index row)));
          ("price", JNum (Close row));
          ("date", JStr (isoformat (index row))) ].

(** [history = []] and one [history.append] per row. *)
Definition chart_formatter (timeframe : string) (df : DataFrame) : list json :=
  fold_left (fun history row => (history ++ [chart_point timeframe row])%list) df [].

(** ** Stat Calculator *)

Record Stats : Type := mkStats {
  current_price : Q; percent_change : Q; high_price : Q; low_price : Q
}.

(** Float division: a zero divisor raises.  Here the quotient is exact; the
    rounding, the overflow to an infinity and the NaN of a double are kept in
    [Float64] below. *)
Definition py_div (a b : Q) : result Q :=
  if Qeq_bool b 0 then Raise (ZeroDivisionError "float division by zero")
  else Ok (a / b).

(** [df.iloc[i]] with Python's negative indices. *)
Definition iloc (df : DataFrame) (i : Z) : result Candle :=
  let n := Z.of_nat (List.length df) in
  let j := (if i <? 0 then n + i else i)%Z in
  if ((0 <=? j) && (j <? n))%Z then
    match nth_error df (Z.to_nat j) with
    | Some c => Ok c
    | None => Raise (IndexError "single positional indexer is out-of-bounds")
    end
  else Raise (IndexError "single positional indexer is out-of-bounds").

(** [Series.max()] and [Series.min()] of a column with at least one value. *)
Definition series_max (x : Q) (xs : list Q) : Q := fold_left Qmax xs x.
Definition series_min (x : Q) (xs : list Q) : Q := fold_left Qmin xs x.

(** The [if len(df) > 0: ... else: ...] block, over the division it uses. *)
Definition stat_calculator_with (div : Q -> Q -> result Q) (df : DataFrame) : result Stats :=
  match df with
  | first :: rest =>
      last_row <- iloc df (-1) ;;
      let current := Close last_row in
      first_row <- iloc df 0 ;;
      let open_price := Close first_row in
      ratio <- div (current - open_price) open_price ;;
      let change := ratio * 100 in
      let high := series_max (High first) (map High rest) in
      let low := series_min (Low first) (map Low rest) in
      Ok (mkStats current change high low)
  | [] => Ok (mkStats 0 0 0 0)
  end.

Definition stat_calculator : DataFrame -> result Stats := stat_calculator_with py_div.

(** ** The pseudo-random generator behind [random.randint] *)

Module Random.

(** The generator's state: a supply of raw non-negative words and a cursor. *)
Record state : Type := mkState { source : nat -> Z; cursor : nat }.

(** [_randbelow(n)]: a value in [0, n) for [0 < n].  One raw word is reduced
    modulo [n]; the rejection sampling of CPython, which may read several
    words for one value, is not followed, so only the range of a result is
    meant, not which words it comes from. *)
Definition randbelow (n : Z) (g : state) : Z * state :=
  ((source g (cursor g) mod n)%Z, mkState (source g) (S (cursor g))).

(** [randint(a, b) = a + _randbelow(b - a + 1)], for [a <= b] (the handler
    calls it with -1000 and 1000 only). *)
Definition randint (a b : Z) (g : state) : Z * state :=
  let '(r, g') := randbelow (b - a + 1) g in ((a + r)%Z, g').

End Random.

(** ** The services built at start-up *)

Record Analyzer : Type := mkAnalyzer {
  fetch_binance_ohlcv_with_fallback : string -> string -> Z -> result DataFrame
}.

Record TechnicalAnalysisService : Type := mkTechnicalAnalysisService {
  analyzer : Analyzer;
  technical_analyze : string -> string -> result json
}.

Record TokenomicsService : Type := mkTokenomicsService {
  tokenomics_analyze : string -> Q -> result json
}.

Record NewsService : Type := mkNewsService {
  get_news_sentiment : string -> result json
}.

Definition Turn : Type := list (string * string).

Record ChatRequest : Type := mkChatRequest {
  message : string;
  user_name : string;
  user_age : Z;
  conversation_history : list Turn
}.

Record ChatService : Type := mkChatService {
  process_message : string -> string -> Z -> list Turn -> result json;
  stream_message : string -> string -> Z -> list Turn -> result (list string)
}.

(** Attribute access on a handle that may be [None]. *)
Definition attr {S A : Type} (handle : option S) (name : string) (f : S -> A) : result A :=
  match handle with
  | Some s => Ok (f s)
  | None => Raise (AttributeError ("'NoneType' object has no attribute '" ++ name ++ "'"))
  end.

(** [try: ... except Exception as e: raise HTTPException(500, str(e))] *)
Definition or_500 {A : Type} (body : result A) : result A :=
  match body with
  | Ok a => Ok a
  | Raise e => Raise (HTTPException 500 (str e))
  end.

(** ** What a handler hands back, and the response FastAPI makes of it *)

Inductive Returned : Type :=
| Body (content : json)
| StreamingResponse (chunks : list string) (media_type : string).

Inductive Response : Type :=
| JSONResponse (status_code : Z) (content : json)
| EventStream (status_code : Z) (chunks : list string) (media_type : string).

Definition serve (r : result Returned) : Response :=
  match r with
  | Ok (Body j) => JSONResponse 200 j
  | Ok (StreamingResponse chunks mt) => EventStream 200 chunks mt
  | Raise (HTTPException c d) => JSONResponse c (JDict [("detail", JStr d)])
  | Raise _ => JSONResponse 500 (JStr "Internal Server Error")
  end.

Definition status (r : Response) : Z :=
  match r with
  | JSONResponse c _ => c
  | EventStream c _ _ => c
  end.

Definition content (r : Response) : option json :=
  match r with
  | JSONResponse _ j => Some j
  | EventStream _ _ _ => None
  end.

(** ** Handlers *)

Section Handlers.

Variable technical_service : option TechnicalAnalysisService.
Variable chat_service : option ChatService.
Variable tokenomics_service : option TokenomicsService.
Variable news_service : option NewsService.

Definition get_technical_analysis (ticker interval_ : string) : result Returned :=
  or_500 (analyze <- attr technical_service "analyze" technical_analyze ;;
          result <- analyze ticker interval_ ;;
          Ok (Body result)).

Definition get_tokenomics (coin_id : string) (investment_amount : Q) : result Returned :=
  or_500 (analyze <- attr tokenomics_service "analyze" tokenomics_analyze ;;
          result <- analyze coin_id investment_amount ;;
          Ok (Body result)).

Definition get_news (ticker : string) : result Returned :=
  or_500 (get_sentiment <- attr news_service "get_news_sentiment" get_news_sentiment ;;
          result <- get_sentiment ticker ;;
          Ok (Body result)).

(** The body of the [try] of [get_price_history]. *)
Definition price_history_pipeline (ticker timeframe : string) : result json :=
  svc <- match technical_service with
         | Some svc => Ok svc
         | None => Raise (HTTPException 503 "Technical service unavailable")
         end ;;
  config <- resolve_timeframe timeframe ;;
  df <- fetch_binance_ohlcv_with_fallback (analyzer svc) ticker
          (interval config) (limit config) ;;
  let history := chart_formatter timeframe df in
  stats <- stat_calculator df ;;
  Ok (JDict [ ("ticker", JStr ticker);
              ("current_price", JNum (current_price stats));
              ("percent_change", JNum (percent_change stats));
              ("high_price", JNum (high_price stats));
              ("low_price", JNum (low_price stats));
              ("history", JList history);
              ("timeframe", JStr timeframe) ]).

(** [[{"time": str(i), "price": 50000 + random.randint(-1000, 1000)}
      for i in range(points)]] *)
Fixpoint mock_points (range : list nat) (g : Random.state) : list json * Random.state :=
  match range with
  | [] => ([], g)
  | i :: rest =>
      let '(r, g1) := Random.randint (-1000) 1000 g in
      let '(pts, g2) := mock_points rest g1 in
      (JDict [ ("time", JStr (decimal (N.of_nat i)));
               ("price", JNum (inject_Z (50000 + r))) ] :: pts, g2)
  end.

Definition points : nat := 20.

(** The [except Exception] branch. *)
Definition mock_payload (ticker : string) (g : Random.state) : json * Random.state :=
  let '(mock_history, g') := mock_points (seq 0 points) g in
  (JDict [ ("ticker", JStr ticker);
           ("current_price", JNum 50000);
           ("percent_change", JNum 2.5);
           ("high_price", JNum 52000);
           ("low_price", JNum 48000);
           ("history", JList mock_history);
           ("is_mock", JBool true) ], g').

Definition get_price_history (ticker timeframe : string) (g : Random.state)
  : result Returned * Random.state :=
  match price_history_pipeline ticker timeframe with
  | Ok payload => (Ok (Body payload), g)
  | Raise e => let '(mock, g') := mock_payload ticker g in (Ok (Body mock), g')
  end.

Definition chat (request : ChatRequest) : result Returned :=
  match chat_service with
  | None => Raise (HTTPException 503 "Chat service unavailable (initialization failed)")
  | Some svc =>
      or_500 (response <- process_message svc (message request) (user_name request)
                            (user_age request) (conversation_history request) ;;
              Ok (Body response))
  end.

Definition chat_stream (request : ChatRequest) : result Returned :=
  match chat_service with
  | None => Raise (HTTPException 503 "Chat service unavailable")
  | Some svc =>
      or_500 (chunks <- stream_message svc (message request) (user_name request)
                          (user_age request) (conversation_history request) ;;
              Ok (StreamingResponse chunks "text/event-stream"))
  end.

End Handlers.

(** The response of the price-history endpoint, as the client receives it. *)
Definition price_history_response (technical_service : option TechnicalAnalysisService)
    (ticker timeframe : string) (g : Random.state) : Response :=
  serve (fst (get_price_history technical_service ticker timeframe g)).

(** ** The price-history handler over IEEE 754 doubles

    A second embedding of [get_price_history] in which a price is a binary64
    value, as a Python [float] is: arithmetic rounds, overflows to an
    infinity and carries NaN.  The value a handler returns is a Python value
    ([pyval]); the framework renders it with [json.dumps(allow_nan=False)]
    after the handler has returned, outside its [try], and answers 500 when
    that rendering fails.  [Series.max] and [Series.min] of pandas are taken
    as given. *)

Module Float64.

Definition float : Type := spec_float.
Definition prec : Z := 53.
Definition emax : Z := 1024.

(** [float(m * 2 ** e)], rounded to nearest even. *)
Definition of_scaled (m e : Z) : float := binary_normalize prec emax m e false.

(** [float(z)] *)
Definition of_int (z : Z) : float := of_scaled z 0.

Definition sub (a b : float) : float := SFsub prec emax a b.
Definition mul (a b : float) : float := SFmul prec emax a b.

(** [a / b]: a zero divisor of either sign raises, every other division
    follows IEEE 754. *)
Definition truediv (a b : float) : result float :=
  if SFeqb b (S754_zero false)
  then Raise (ZeroDivisionError "float division by zero")
  else Ok (SFdiv prec emax a b).

(** [math.isfinite] *)
Definition isfinite (f : float) : bool :=
  match f with
  | S754_zero _ => true
  | S754_finite _ _ _ => true
  | S754_infinity _ => false
  | S754_nan => false
  end.

(** The Python values a handler returns. *)
Local Unset Elimination Schemes.
Inductive pyval : Type :=
| PFloat (f : float)
| PInt (z : Z)
| PStr (s : string)
| PBool (b : bool)
| PList (l : list pyval)
| PDict (kvs : list (string * pyval)).
Local Set Elimination Schemes.

(** Whether [json.dumps(v, allow_nan=False)] succeeds: it raises
    [ValueError] on a NaN or an infinity anywhere in the value. *)
Fixpoint compliant (v : pyval) : bool :=
  match v with
  | PFloat f => isfinite f
  | PInt _ => true
  | PStr _ => true
  | PBool _ => true
  | PList l => forallb compliant l
  | PDict kvs => forallb (fun kv => let '(_, x) := kv in compliant x) kvs
  end.

Fixpoint lookup (k : string) (kvs : list (string * pyval)) : option pyval :=
  match kvs with
  | [] => None
  | (k', v) :: rest => if String.eqb k k' then Some v else lookup k rest
  end.

Definition get (k : string) (v : pyval) : option pyval :=
  match v with
  | PDict kvs => lookup k kvs
  | _ => None
  end.

Record Response : Type := mkResponse { status_code : Z; body : pyval }.

(** What the framework makes of a handler's outcome: a returned value is
    rendered as JSON with status 200, or answered with 500 when the rendering
    raises; a raised [HTTPException] is answered with its own status; any
    other exception with 500. *)
Definition respond (r : result pyval) : Response :=
  match r with
  | Ok v =>
      if compliant v then mkResponse 200 v
      else mkResponse 500 (PStr "Internal Server Error")
  | Raise (HTTPException c d) => mkResponse c (PDict [("detail", PStr d)])
  | Raise _ => mkResponse 500 (PStr "Internal Server Error")
  end.

Record Candle : Type := mkCandle {
  index : Timestamp;
  Open : float; High : float; Low : float; Close : float; Volume : float
}.

Definition DataFrame : Type := list Candle.

Record Analyzer : Type := mkAnalyzer {
  fetch_binance_ohlcv_with_fallback : string -> string -> Z -> result DataFrame
}.

Record TechnicalAnalysisService : Type := mkTechnicalAnalysisService {
  analyzer : Analyzer
}.

(** [df.iloc[i]] with Python's negative indices. *)
Definition iloc (df : DataFrame) (i : Z) : result Candle :=
  let n := Z.of_nat (List.length df) in
  let j := (if i <? 0 then n + i else i)%Z in
  if ((0 <=? j) && (j <? n))%Z then
    match nth_error df (Z.to_nat j) with
    | Some c => Ok c
    | None => Raise (IndexError "single positional indexer is out-of-bounds")
    end
  else Raise (IndexError "single positional indexer is out-of-bounds").

Definition chart_point (timeframe : string) (row : Candle) : pyval :=
  PDict [ ("time", PStr (time_label timeframe (index row)));
          ("price", PFloat (Close row));
          ("date", PStr (isoformat (index row))) ].

Definition chart_formatter (timeframe : string) (df : DataFrame) : list pyval :=
  fold_left (fun history row => (history ++ [chart_point timeframe row])%list) df [].

Record Stats : Type := mkStats {
  current_price : pyval; percent_change : pyval;
  high_price : pyval; low_price : pyval
}.

Section Handler.

(** [Series.max()] and [Series.min()] of a column. *)
Variable series_max : list float -> float.
Variable series_min : list float -> float.

Variable technical_service : option TechnicalAnalysisService.

(** The [if len(df) > 0: ... else: ...] block: floats in the first branch,
    the integer 0 in the second. *)
Definition stat_calculator (df : DataFrame) : result Stats :=
  match df with
  | _ :: _ =>
      last_row <- iloc df (-1) ;;
      let current := Close last_row in
      first_row <- iloc df 0 ;;
      let open_price := Close first_row in
      ratio <- truediv (sub current open_price) open_price ;;
      let change := mul ratio (of_int 100) in
      let high := series_max (map High df) in
      let low := series_min (map Low df) in
      Ok (mkStats (PFloat current) (PFloat change) (PFloat high) (PFloat low))
  | [] => Ok (mkStats (PInt 0) (PInt 0) (PInt 0) (PInt 0))
  end.

(** The body of the [try]. *)
Definition price_history_pipeline (ticker timeframe : string) : result pyval :=
  svc <- match technical_service with
         | Some svc => Ok svc
         | None => Raise (HTTPException 503 "Technical service unavailable")
         end ;;
  config <- resolve_timeframe timeframe ;;
  df <- fetch_binance_ohlcv_with_fallback (analyzer svc) ticker
          (interval config) (limit config) ;;
  let history := chart_formatter timeframe df in
  stats <- stat_calculator df ;;
  Ok (PDict [ ("ticker", PStr ticker);
              ("current_price", current_price stats);
              ("percent_change", percent_change stats);
              ("high_price", high_price stats);
              ("low_price", low_price stats);
              ("history", PList history);
              ("timeframe", PStr timeframe) ]).

Fixpoint mock_points (range : list nat) (g : Random.state) : list pyval * Random.state :=
  match range with
  | [] => ([], g)
  | i :: rest =>
      let '(r, g1) := Random.randint (-1000) 1000 g in
      let '(pts, g2) := mock_points rest g1 in
      (PDict [ ("time", PStr (decimal (N.of_nat i)));
               ("price", PInt (50000 + r)) ] :: pts, g2)
  end.

(** The [except Exception] branch; 2.5 is 5 * 2 ** -1. *)
Definition mock_payload (ticker : string) (g : Random.state) : pyval * Random.state :=
  let '(mock_history, g') := mock_points (seq 0 20) g in
  (PDict [ ("ticker", PStr ticker);
           ("current_price", PInt 50000);
           ("percent_change", PFloat (of_scaled 5 (-1)));
           ("high_price", PInt 52000);
           ("low_price", PInt 48000);
           ("history", PList mock_history);
           ("is_mock", PBool true) ], g').

Definition get_price_history (ticker timeframe : string) (g : Random.state)
  : result pyval * Random.state :=
  match price_history_pipeline ticker timeframe with
  | Ok payload => (Ok payload, g)
  | Raise e => let '(mock, g') := mock_payload ticker g in (Ok mock, g')
  end.

(** The response of the endpoint. *)
Definition price_history_response (ticker timeframe : string) (g : Random.state)
  : Response :=
  respond (fst (get_price_history ticker timeframe g)).

End Handler.

(** A candle on 3 March 2024, at 14 hours and the given minute, whose five
    values all equal [x]. *)
Definition flat_candle (minute_ : N) (x : float) : Candle :=
  mkCandle (mkTimestamp 2024 3 3 14 minute_ 0 0 0) x x x x x.

(** Two finite candles: the first closes at 2 ** -20, the second at
    2 ** 1010. *)
Definition overflow_df : DataFrame :=
  [ flat_candle 5 (of_scaled 1 (-20)); flat_candle 20 (of_scaled 1 1010) ].

(** Two candles, the second with a missing (NaN) close. *)
Definition nan_df : DataFrame :=
  [ flat_candle 5 (of_int 100);
    mkCandle (mkTimestamp 2024 3 3 14 20 0 0 0)
      (of_int 100) (of_int 100) (of_int 100) S754_nan (of_int 0) ].

Definition service_returning (df : DataFrame) : TechnicalAnalysisService :=
  mkTechnicalAnalysisService (mkAnalyzer (fun _ _ _ => Ok df)).

End Float64.

(** ** The wording of the specification, for comparison with the code *)

Definition history_of (payload : json) : list json :=
  match get "history" payload with
  | Some (JList h) => h
  | _ => []
  end.

Definition real_keys : list string :=
  ["ticker"; "current_price"; "percent_change"; "high_price"; "low_price";
   "history"; "timeframe"].

Definition mock_keys : list string :=
  ["ticker"; "current_price"; "percent_change"; "high_price"; "low_price";
   "history"; "is_mock"].

(** The mock payload as the specification describes it: the top-level fields
    of a real response with [is_mock] in place of [timeframe], and history
    entries that carry [time], [price] and [date]. *)
Definition mock_structurally_identical (mock : json) : Prop :=
  keys mock = mock_keys
  /\ Forall (fun entry => In "time" (keys entry) /\ In "price" (keys entry)
                          /\ In "date" (keys entry)) (history_of mock).

(** The display label as the specification words it. *)
Definition hour_minute (t : Timestamp) : string :=
  format_0d 2 (hour t) ++ ":" ++ format_0d 2 (minute t).

Definition weekday_abbr (t : Timestamp) : string :=
  nth (N.to_nat (weekday t)) day_abbr EmptyString.

Definition month_abbr_of (t : Timestamp) : string :=
  nth (N.to_nat (month t - 1)) month_abbr EmptyString.

Definition label_spec (timeframe : string) (t : Timestamp) : string :=
  if String.eqb timeframe "24H" then hour_minute t
  else if String.eqb timeframe "7D" then weekday_abbr t ++ " " ++ hour_minute t
  else if String.eqb timeframe "30D" then month_abbr_of t ++ " " ++ format_0d 2 (day t)
  else month_abbr_of t ++ " " ++ format_0d 2 (day t) ++ " " ++ format_0d 4 (year t).

Definition point_spec (timeframe : string) (row : Candle) : json :=
  JDict [ ("time", JStr (label_spec timeframe (index row)));
          ("price", JNum (Close row));
          ("date", JStr (isoformat (index row))) ].

(** [v] is the greatest of the highs, respectively the least of the lows. *)
Definition max_of_highs (v : Q) (df : DataFrame) : Prop :=
  Forall (fun c => High c <= v) df /\ Exists (fun c => High c = v) df.

Definition min_of_lows (v : Q) (df : DataFrame) : Prop :=
  Forall (fun c => v <= Low c) df /\ Exists (fun c => Low c = v) df.

(** The summary the specification promises for a series that starts with
    [first]. *)
Definition summary_spec (first : Candle) (rest : DataFrame) (st : Stats) : Prop :=
  let df := first :: rest in
  let last_row := last df first in
  current_price st = Close last_row
  /\ percent_change st = (Close last_row - Close first) / Close first * 100
  /\ max_of_highs (high_price st) df
  /\ min_of_lows (low_price st) df.

(** Every price of the history lies between the low and the high of the
    payload. *)
Definition price_in_band (lo hi : Q) (entry : json) : Prop :=
  exists p : Q, get "price" entry = Some (JNum p) /\ (lo <= p)%Q /\ (p <= hi)%Q.

Definition prices_within (payload : json) : Prop :=
  exists lo hi : Q,
    get "low_price" payload = Some (JNum lo)
    /\ get "high_price" payload = Some (JNum hi)
    /\ Forall (price_in_band lo hi) (history_of payload).

Definition mock_band (payload : json) : Prop :=
  get "is_mock" payload = Some (JBool true)
  /\ get "low_price" payload = Some (JNum 48000)
  /\ get "high_price" payload = Some (JNum 52000)
  /\ Forall (price_in_band 49000 51000) (history_of payload).

(** A candle whose close lies between its low and its high. *)
Definition close_in_range (c : Candle) : Prop :=
  (Low c <= Close c)%Q /\ (Close c <= High c)%Q.

(** The canonical date of a chart point, read back. *)
Definition date_of (entry : json) : option Timestamp :=
  match get "date" entry with
  | Some (JStr s) => IsoParse.fromisoformat s
  | _ => None
  end.

(** Strictly ascending timestamps, candle after candle. *)
Definition ascending (df : DataFrame) : Prop :=
  Sorted (fun a b => Datetime.lt (index a) (index b)) df.

(** The fraction of a second that [isoformat] prints, and its value in
    nanoseconds. *)
Definition fraction (t : Timestamp) : string :=
  if N.eqb (nanosecond t) 0 then
    if N.eqb (microsecond t) 0 then "" else "." ++ pad 6 (microsecond t)
  else if N.eqb (microsecond t) 0 then "." ++ pad 9 (nanosecond t)
  else "." ++ pad 6 (microsecond t) ++ pad 3 (nanosecond t).

Definition subsecond (t : Timestamp) : N := (microsecond t * 1000 + nanosecond t)%N.

(** The inputs on which the price-history pipeline has a payload: a service,
    a frame fetched at the resolved interval and limit, and that frame empty
    or starting with a candle that does not close at zero. *)
Definition usable_frame (ts : option TechnicalAnalysisService)
    (ticker timeframe : string) : Prop :=
  exists svc df,
    ts = Some svc
    /\ fetch_binance_ohlcv_with_fallback (analyzer svc) ticker
         (interval (resolver_table timeframe)) (limit (resolver_table timeframe))
       = Ok df
    /\ (df = [] \/ exists first rest, df = first :: rest /\ ~ (Close first == 0)%Q).

(** ** Sample inputs *)

(** A technical-analysis service whose every upstream call fails. *)
Definition failing_service : TechnicalAnalysisService :=
  mkTechnicalAnalysisService
    (mkAnalyzer (fun _ _ _ => Raise (UpstreamError "binance unreachable")))
    (fun _ _ => Raise (UpstreamError "binance unreachable")).

Definition zero_rng : Random.state := Random.mkState (fun _ => 0%Z) 0.

Definition march_3 (h m : N) : Timestamp := mkTimestamp 2024 3 3 h m 0 0 0.

Definition candle_a : Candle := mkCandle (march_3 14 5) 100 110 95 105 10.
Definition candle_b : Candle := mkCandle (march_3 14 20) 105 120 100 110 12.
Definition candle_c : Candle := mkCandle (march_3 14 35) 110 115 90 99 7.

(** A candle that closes at zero. *)
Definition candle_zero : Candle := mkCandle (march_3 14 5) 1 2 0 0 10.

Definition sample_df : DataFrame := [candle_a; candle_b; candle_c].

Definition sample_service : TechnicalAnalysisService :=
  mkTechnicalAnalysisService
    (mkAnalyzer (fun _ _ _ => Ok sample_df))
    (fun _ _ => Ok (JDict [])).

(** * Properties *)

(** ** Timeframe Resolver *)

Lemma resolve_timeframe_ok :
  forall timeframe : string,
    resolve_timeframe timeframe = Ok (resolver_table timeframe).
Proof.
  intro timeframe.
  unfold resolve_timeframe, resolver_table, timeframe_map.
  cbn [dict_index bind dict_get].
  change (String.eqb "24H" "24H") with true. cbn iota.
  destruct (String.eqb timeframe "24H"); [reflexivity |].
  destruct (String.eqb timeframe "7D"); [reflexivity |].
  destruct (String.eqb timeframe "30D"); [reflexivity |].
  destruct (String.eqb timeframe "1Y"); reflexivity.
Qed.

(** C4: for every input string the Timeframe Resolver returns, without
    raising, exactly the pair of the enumerated table: 24H gives (15m, 96),
    7D gives (1h, 168), 30D gives (4h, 180), 1Y gives (1d, 365), and every
    other string gives the 24H pair (15m, 96). *)
Theorem resolve_timeframe_total_table :
  forall timeframe : string,
    resolve_timeframe timeframe = Ok (resolver_table timeframe)
    /\ resolve_timeframe "24H" = Ok (mkConfig "15m" 96)
    /\ resolve_timeframe "7D" = Ok (mkConfig "1h" 168)
    /\ resolve_timeframe "30D" = Ok (mkConfig "4h" 180)
    /\ resolve_timeframe "1Y" = Ok (mkConfig "1d" 365)
    /\ resolve_timeframe "5Y" = Ok (mkConfig "15m" 96).
Proof.
  intro timeframe.
  split; [apply resolve_timeframe_ok | repeat split; reflexivity].
Qed.

(** ** The mock payload *)

Lemma mock_points_length :
  forall (range : list nat) (g : Random.state),
    List.length (fst (mock_points range g)) = List.length range.
Proof.
  induction range as [| i rest IH]; intro g; [reflexivity |].
  cbn [mock_points].
  destruct (Random.randint (-1000) 1000 g) as [r g1].
  specialize (IH g1).
  destruct (mock_points rest g1) as [pts g2].
  cbn in *. now rewrite IH.
Qed.

Lemma mock_points_keys :
  forall (range : list nat) (g : Random.state),
    Forall (fun entry => keys entry = ["time"; "price"]) (fst (mock_points range g)).
Proof.
  induction range as [| i rest IH]; intro g; [constructor |].
  cbn [mock_points].
  destruct (Random.randint (-1000) 1000 g) as [r g1].
  specialize (IH g1).
  destruct (mock_points rest g1) as [pts g2].
  cbn in *. constructor; [reflexivity | exact IH].
Qed.

Lemma mock_payload_shape :
  forall (ticker : string) (g : Random.state),
    fst (mock_payload ticker g) =
    JDict [ ("ticker", JStr ticker);
            ("current_price", JNum 50000);
            ("percent_change", JNum 2.5);
            ("high_price", JNum 52000);
            ("low_price", JNum 48000);
            ("history", JList (fst (mock_points (seq 0 points) g)));
            ("is_mock", JBool true) ].
Proof.
  intros ticker g. unfold mock_payload.
  destruct (mock_points (seq 0 points) g) as [h g']. reflexivity.
Qed.

Lemma get_price_history_cases :
  forall ts ticker timeframe g,
    (exists payload,
        price_history_pipeline ts ticker timeframe = Ok payload
        /\ fst (get_price_history ts ticker timeframe g) = Ok (Body payload))
    \/ (exists e,
        price_history_pipeline ts ticker timeframe = Raise e
        /\ fst (get_price_history ts ticker timeframe g)
           = Ok (Body (fst (mock_payload ticker g)))).
Proof.
  intros ts ticker timeframe g. unfold get_price_history.
  destruct (price_history_pipeline ts ticker timeframe) as [payload | e].
  - left. exists payload. split; reflexivity.
  - right. exists e. split; [reflexivity |].
    destruct (mock_payload ticker g) as [mock g']. reflexivity.
Qed.

(** ** Degradation Guard *)

(** *** The endpoint over doubles *)

Lemma mock_points64_length :
  forall (range : list nat) (g : Random.state),
    List.length (fst (Float64.mock_points range g)) = List.length range.
Proof.
  induction range as [| i rest IH]; intro g; [reflexivity |].
  cbn [Float64.mock_points].
  destruct (Random.randint (-1000) 1000 g) as [r g1].
  specialize (IH g1).
  destruct (Float64.mock_points rest g1) as [pts g2].
  cbn in *. now rewrite IH.
Qed.

Lemma mock_points64_compliant :
  forall (range : list nat) (g : Random.state),
    forallb Float64.compliant (fst (Float64.mock_points range g)) = true.
Proof.
  induction range as [| i rest IH]; intro g; [reflexivity |].
  cbn [Float64.mock_points].
  destruct (Random.randint (-1000) 1000 g) as [r g1].
  specialize (IH g1).
  destruct (Float64.mock_points rest g1) as [pts g2].
  cbn in *. exact IH.
Qed.

Lemma mock_payload64_shape :
  forall (ticker : string) (g : Random.state),
    fst (Float64.mock_payload ticker g)
    = Float64.PDict
        [ ("ticker", Float64.PStr ticker);
          ("current_price", Float64.PInt 50000);
          ("percent_change", Float64.PFloat (Float64.of_scaled 5 (-1)));
          ("high_price", Float64.PInt 52000);
          ("low_price", Float64.PInt 48000);
          ("history", Float64.PList (fst (Float64.mock_points (seq 0 20) g)));
          ("is_mock", Float64.PBool true) ].
Proof.
  intros ticker g. unfold Float64.mock_payload.
  destruct (Float64.mock_points (seq 0 20) g) as [h g']. reflexivity.
Qed.

(** The mock payload holds integers and the finite float 2.5 only, so its
    rendering never fails. *)
Lemma mock_payload64_compliant :
  forall (ticker : string) (g : Random.state),
    Float64.compliant (fst (Float64.mock_payload ticker g)) = true.
Proof.
  intros ticker g. rewrite mock_payload64_shape.
  cbn [Float64.compliant forallb].
  rewrite mock_points64_compliant. reflexivity.
Qed.

Lemma get_price_history64_cases :
  forall series_max series_min ts ticker timeframe g,
    (exists payload,
        Float64.price_history_pipeline series_max series_min ts ticker timeframe
        = Ok payload
        /\ fst (Float64.get_price_history series_max series_min ts ticker timeframe g)
           = Ok payload)
    \/ (exists e,
        Float64.price_history_pipeline series_max series_min ts ticker timeframe
        = Raise e
        /\ fst (Float64.get_price_history series_max series_min ts ticker timeframe g)
           = Ok (fst (Float64.mock_payload ticker g))).
Proof.
  intros series_max series_min ts ticker timeframe g.
  unfold Float64.get_price_history.
  destruct (Float64.price_history_pipeline series_max series_min ts ticker timeframe)
    as [payload | e].
  - left. exists payload. split; reflexivity.
  - right. exists e. split; [reflexivity |].
    destruct (Float64.mock_payload ticker g) as [mock g']. reflexivity.
Qed.

(** C1, evaluated on the code.  The handler never raises: it returns the
    real payload or, whenever a step of the pipeline raises, the mock payload
    with [is_mock] true and 20 points, which is answered with HTTP 200.  A
    real payload is answered with 200 only when every number in it is
    finite: for two finite candles closing at 2 ** -20 and 2 ** 1010 the
    handler returns a percent_change of infinity, for a candle with a NaN
    close it returns NaN, and in both cases the rendering after the handler
    fails and the endpoint answers 500. *)
Theorem price_history_nonfinite_500 :
  forall (series_max series_min : list Float64.float -> Float64.float)
         (ts : option Float64.TechnicalAnalysisService)
         (ticker timeframe : string) (g : Random.state),
    ((exists payload,
         Float64.price_history_pipeline series_max series_min ts ticker timeframe
         = Ok payload
         /\ fst (Float64.get_price_history series_max series_min ts ticker timeframe g)
            = Ok payload
         /\ Float64.status_code
              (Float64.price_history_response series_max series_min ts ticker timeframe g)
            = (if Float64.compliant payload then 200 else 500)%Z)
     \/ (exists e mock history,
         Float64.price_history_pipeline series_max series_min ts ticker timeframe
         = Raise e
         /\ Float64.price_history_response series_max series_min ts ticker timeframe g
            = Float64.mkResponse 200 mock
         /\ Float64.get "is_mock" mock = Some (Float64.PBool true)
         /\ Float64.get "history" mock = Some (Float64.PList history)
         /\ List.length history = 20%nat))
    /\ (exists payload,
          fst (Float64.get_price_history series_max series_min
                 (Some (Float64.service_returning Float64.overflow_df))
                 ticker timeframe g) = Ok payload
          /\ Float64.get "percent_change" payload
             = Some (Float64.PFloat (S754_infinity false)))
    /\ Float64.price_history_response series_max series_min
         (Some (Float64.service_returning Float64.overflow_df)) ticker timeframe g
       = Float64.mkResponse 500 (Float64.PStr "Internal Server Error")
    /\ (exists payload,
          fst (Float64.get_price_history series_max series_min
                 (Some (Float64.service_returning Float64.nan_df))
                 ticker timeframe g) = Ok payload
          /\ Float64.get "percent_change" payload = Some (Float64.PFloat S754_nan))
    /\ Float64.price_history_response series_max series_min
         (Some (Float64.service_returning Float64.nan_df)) ticker timeframe g
       = Float64.mkResponse 500 (Float64.PStr "Internal Server Error").
Proof.
  intros series_max series_min ts ticker timeframe g.
  split.
  { unfold Float64.price_history_response.
    destruct (get_price_history64_cases series_max series_min ts ticker timeframe g)
      as [[payload [Hp Hr]] | [e [Hp Hr]]]; rewrite Hr.
    - left. exists payload. split; [exact Hp |]. split; [reflexivity |].
      unfold Float64.respond. destruct (Float64.compliant payload); reflexivity.
    - right.
      exists e, (fst (Float64.mock_payload ticker g)),
             (fst (Float64.mock_points (seq 0 20) g)).
      split; [exact Hp |].
      split.
      + unfold Float64.respond. now rewrite mock_payload64_compliant.
      + rewrite mock_payload64_shape.
        split; [reflexivity |]. split; [reflexivity |].
        apply mock_points64_length. }
  assert (Hover :
            Float64.price_history_pipeline series_max series_min
              (Some (Float64.service_returning Float64.overflow_df)) ticker timeframe
            = Ok (Float64.PDict
                    [ ("ticker", Float64.PStr ticker);
                      ("current_price", Float64.PFloat (Float64.of_scaled 1 1010));
                      ("percent_change", Float64.PFloat (S754_infinity false));
                      ("high_price",
                       Float64.PFloat (series_max (map Float64.High Float64.overflow_df)));
                      ("low_price",
                       Float64.PFloat (series_min (map Float64.Low Float64.overflow_df)));
                      ("history",
                       Float64.PList (Float64.chart_formatter timeframe Float64.overflow_df));
                      ("timeframe", Float64.PStr timeframe) ])).
  { unfold Float64.price_history_pipeline. cbn [bind].
    rewrite resolve_timeframe_ok. reflexivity. }
  assert (Hnan :
            Float64.price_history_pipeline series_max series_min
              (Some (Float64.service_returning Float64.nan_df)) ticker timeframe
            = Ok (Float64.PDict
                    [ ("ticker", Float64.PStr ticker);
                      ("current_price", Float64.PFloat S754_nan);
                      ("percent_change", Float64.PFloat S754_nan);
                      ("high_price",
                       Float64.PFloat (series_max (map Float64.High Float64.nan_df)));
                      ("low_price",
                       Float64.PFloat (series_min (map Float64.Low Float64.nan_df)));
                      ("history",
                       Float64.PList (Float64.chart_formatter timeframe Float64.nan_df));
                      ("timeframe", Float64.PStr timeframe) ])).
  { unfold Float64.price_history_pipeline. cbn [bind].
    rewrite resolve_timeframe_ok. reflexivity. }
  unfold Float64.price_history_response, Float64.get_price_history.
  rewrite Hover, Hnan. cbn [fst].
  split; [eexists; split; reflexivity |].
  split; [reflexivity |].
  split; [eexists; split; reflexivity |].
  reflexivity.
Qed.

(** The fetcher raises for BTCUSDT over 7D: the handler returns the mock
    payload, which is answered with 200. *)
Example price_history_fetch_failure :
  status (price_history_response (Some failing_service) "BTCUSDT" "7D" zero_rng) = 200%Z
  /\ exists mock history,
       content (price_history_response (Some failing_service) "BTCUSDT" "7D" zero_rng)
       = Some mock
       /\ get "is_mock" mock = Some (JBool true)
       /\ get "history" mock = Some (JList history)
       /\ List.length history = 20%nat.
Proof.
  assert (Hp : price_history_pipeline (Some failing_service) "BTCUSDT" "7D"
               = Raise (UpstreamError "binance unreachable")) by reflexivity.
  unfold price_history_response, get_price_history. rewrite Hp.
  destruct (mock_payload "BTCUSDT" zero_rng) as [mock g'] eqn:E.
  assert (Hm : mock = fst (mock_payload "BTCUSDT" zero_rng)) by now rewrite E.
  cbn [fst serve status content].
  split; [reflexivity |].
  exists mock, (fst (mock_points (seq 0 points) zero_rng)).
  rewrite Hm, mock_payload_shape.
  split; [reflexivity |]. split; [reflexivity |]. split; [reflexivity |].
  apply mock_points_length.
Qed.

(** C2, evaluated on the code: with the technical-analysis service missing,
    the 503 raised inside the [try] is caught by the handler's own
    [except Exception], and the endpoint answers HTTP 200 with the mock
    payload; the technical-analysis endpoint answers 500. *)
Theorem price_history_unavailable_is_mock :
  forall (ticker timeframe : string) (g : Random.state),
    price_history_pipeline None ticker timeframe
      = Raise (HTTPException 503 "Technical service unavailable")
    /\ status (price_history_response None ticker timeframe g) = 200%Z
    /\ status (price_history_response None ticker timeframe g) <> 503%Z
    /\ content (price_history_response None ticker timeframe g)
       = Some (fst (mock_payload ticker g))
    /\ get "is_mock" (fst (mock_payload ticker g)) = Some (JBool true)
    /\ (forall interval_, status (serve (get_technical_analysis None ticker interval_)) = 500%Z).
Proof.
  intros ticker timeframe g.
  unfold price_history_response, get_price_history. cbn [price_history_pipeline bind].
  destruct (mock_payload ticker g) as [mock g'] eqn:E.
  cbn [fst serve status content].
  assert (Hm : mock = fst (mock_payload ticker g)) by now rewrite E.
  rewrite Hm, mock_payload_shape.
  repeat split; try reflexivity.
  discriminate.
Qed.

(** The endpoints that use a missing service without testing it answer 500
    with the text of the [AttributeError]. *)
Lemma missing_service_answers_500 :
  forall (ticker coin_id : string) (interval_ : string) (amount : Q),
    serve (get_technical_analysis None ticker interval_)
    = JSONResponse 500
        (JDict [("detail", JStr "'NoneType' object has no attribute 'analyze'")])
    /\ serve (get_tokenomics None coin_id amount)
    = JSONResponse 500
        (JDict [("detail", JStr "'NoneType' object has no attribute 'analyze'")])
    /\ serve (get_news None ticker)
    = JSONResponse 500
        (JDict [("detail", JStr "'NoneType' object has no attribute 'get_news_sentiment'")]).
Proof.
  intros. repeat split.
Qed.

(** ** Chat endpoints *)

(** C7: with the assistant unavailable, POST /chat and POST /chat/stream both
    answer with the 503 service-unavailable signal, never 500 and never a
    payload of the assistant. *)
Theorem chat_unavailable_503 :
  forall request : ChatRequest,
    serve (chat None request)
      = JSONResponse 503
          (JDict [("detail", JStr "Chat service unavailable (initialization failed)")])
    /\ serve (chat_stream None request)
      = JSONResponse 503 (JDict [("detail", JStr "Chat service unavailable")])
    /\ status (serve (chat None request)) = 503%Z
    /\ status (serve (chat_stream None request)) = 503%Z
    /\ status (serve (chat None request)) <> 500%Z
    /\ status (serve (chat_stream None request)) <> 500%Z.
Proof.
  intro request. cbn. repeat split; try reflexivity; discriminate.
Qed.

(** A real payload has the documented fields. *)
Lemma chart_formatter_acc :
  forall (timeframe : string) (df : DataFrame) (acc : list json),
    fold_left (fun history row => (history ++ [chart_point timeframe row])%list) df acc
    = (acc ++ map (chart_point timeframe) df)%list.
Proof.
  intros timeframe df. induction df as [| row rest IH]; intro acc; cbn.
  - now rewrite app_nil_r.
  - rewrite IH, <- app_assoc. reflexivity.
Qed.

Lemma chart_formatter_map :
  forall (timeframe : string) (df : DataFrame),
    chart_formatter timeframe df = map (chart_point timeframe) df.
Proof.
  intros. unfold chart_formatter. now rewrite chart_formatter_acc.
Qed.

Lemma real_payload_keys :
  forall ts ticker timeframe payload,
    price_history_pipeline ts ticker timeframe = Ok payload ->
    keys payload = real_keys
    /\ Forall (fun entry => keys entry = ["time"; "price"; "date"]) (history_of payload).
Proof.
  intros ts ticker timeframe payload H.
  unfold price_history_pipeline in H.
  destruct ts as [svc |]; cbn [bind] in H; [| discriminate].
  destruct (resolve_timeframe timeframe) as [config | e]; cbn [bind] in H; [| discriminate].
  destruct (fetch_binance_ohlcv_with_fallback _ _ _ _) as [df | e];
    cbn [bind] in H; [| discriminate].
  destruct (stat_calculator df) as [st | e]; cbn [bind] in H; [| discriminate].
  injection H as <-. split; [reflexivity |].
  unfold history_of. cbn [get lookup String.eqb Ascii.eqb Bool.eqb].
  rewrite chart_formatter_map. apply Forall_forall.
  intros entry Hin. apply in_map_iff in Hin as [row [<- _]]. reflexivity.
Qed.

(** C3, as the code has it: the mock payload carries the top-level fields
    ticker, current_price, percent_change, high_price, low_price and history,
    plus is_mock in place of timeframe; each of its 20 history entries
    carries the fields time and price only, with no date. *)
Theorem mock_payload_fields :
  forall (ticker : string) (g : Random.state),
    keys (fst (mock_payload ticker g)) = mock_keys
    /\ ~ In "timeframe" (keys (fst (mock_payload ticker g)))
    /\ List.length (history_of (fst (mock_payload ticker g))) = 20%nat
    /\ Forall (fun entry => keys entry = ["time"; "price"])
         (history_of (fst (mock_payload ticker g))).
Proof.
  intros ticker g. rewrite mock_payload_shape.
  split; [reflexivity |].
  split.
  - cbn. intros H. repeat (destruct H as [H | H]; [discriminate H |]). exact H.
  - unfold history_of. cbn [get lookup String.eqb Ascii.eqb Bool.eqb].
    split; [apply mock_points_length | apply mock_points_keys].
Qed.

(** C3 as worded fails: the entries of the mock history have no [date]. *)
Lemma mock_payload_lacks_date :
  ~ mock_structurally_identical (fst (mock_payload "BTCUSDT" zero_rng)).
Proof.
  intros [_ H]. vm_compute in H.
  inversion H as [| entry rest [_ [_ Hdate]] _]; subst.
  repeat (destruct Hdate as [Hdate | Hdate]; [discriminate Hdate |]). exact Hdate.
Qed.

(** ** Stat Calculator *)

Local Open Scope Q_scope.

Lemma nth_error_last :
  forall (A : Type) (l : list A) (x d : A),
    nth_error (x :: l) (List.length l) = Some (last (x :: l) d).
Proof.
  intros A l. induction l as [| y l IH]; intros x d; [reflexivity |].
  cbn [List.length nth_error]. rewrite (IH y d). reflexivity.
Qed.

Lemma iloc_last :
  forall (first : Candle) (rest : DataFrame),
    iloc (first :: rest) (-1) = Ok (last (first :: rest) first).
Proof.
  intros first rest. unfold iloc.
  change (-1 <? 0)%Z with true. cbn iota.
  set (n := Z.of_nat (List.length (first :: rest))).
  assert (Hn : n = (Z.of_nat (List.length rest) + 1)%Z)
    by (subst n; cbn [List.length]; lia).
  replace ((0 <=? n + -1)%Z && (n + -1 <? n)%Z) with true
    by (symmetry; apply andb_true_iff; split;
        [apply Z.leb_le | apply Z.ltb_lt]; lia).
  replace (Z.to_nat (n + -1)) with (List.length rest) by lia.
  now rewrite (nth_error_last _ rest first first).
Qed.

Lemma iloc_first :
  forall (first : Candle) (rest : DataFrame),
    iloc (first :: rest) 0 = Ok first.
Proof.
  intros first rest. unfold iloc.
  change (0 <? 0)%Z with false. cbn iota.
  replace ((0 <=? 0)%Z && (0 <? Z.of_nat (List.length (first :: rest)))%Z) with true
    by (symmetry; apply andb_true_iff; split;
        [apply Z.leb_le | apply Z.ltb_lt]; cbn [List.length]; lia).
  reflexivity.
Qed.

Lemma Qmax_cases : forall x y : Q, Qmax x y = x \/ Qmax x y = y.
Proof.
  intros x y. unfold Qmax, GenericMinMax.gmax.
  destruct (x ?= y); auto.
Qed.

Lemma Qmin_cases : forall x y : Q, Qmin x y = x \/ Qmin x y = y.
Proof.
  intros x y. unfold Qmin, GenericMinMax.gmin.
  destruct (x ?= y); auto.
Qed.

Lemma series_max_spec :
  forall (xs : list Q) (x : Q),
    x <= series_max x xs
    /\ Forall (fun y => y <= series_max x xs) xs
    /\ (series_max x xs = x \/ In (series_max x xs) xs).
Proof.
  unfold series_max.
  induction xs as [| y ys IH]; intro x; cbn [fold_left].
  - split; [apply Qle_refl |]. split; [constructor | now left].
  - destruct (IH (Qmax x y)) as [Hle [Hall Hin]].
    split; [eapply Qle_trans; [apply Q.le_max_l | exact Hle] |].
    split.
    + constructor; [eapply Qle_trans; [apply Q.le_max_r | exact Hle] | exact Hall].
    + destruct Hin as [Heq | Hin]; [| right; now right].
      rewrite Heq. destruct (Qmax_cases x y) as [-> | ->]; [now left |].
      right. now left.
Qed.

Lemma series_min_spec :
  forall (xs : list Q) (x : Q),
    series_min x xs <= x
    /\ Forall (fun y => series_min x xs <= y) xs
    /\ (series_min x xs = x \/ In (series_min x xs) xs).
Proof.
  unfold series_min.
  induction xs as [| y ys IH]; intro x; cbn [fold_left].
  - split; [apply Qle_refl |]. split; [constructor | now left].
  - destruct (IH (Qmin x y)) as [Hle [Hall Hin]].
    split; [eapply Qle_trans; [exact Hle | apply Q.le_min_l] |].
    split.
    + constructor; [eapply Qle_trans; [exact Hle | apply Q.le_min_r] | exact Hall].
    + destruct Hin as [Heq | Hin]; [| right; now right].
      rewrite Heq. destruct (Qmin_cases x y) as [-> | ->]; [now left |].
      right. now left.
Qed.

Lemma max_of_highs_series :
  forall (first : Candle) (rest : DataFrame),
    max_of_highs (series_max (High first) (map High rest)) (first :: rest).
Proof.
  intros first rest.
  destruct (series_max_spec (map High rest) (High first)) as [Hle [Hall Hin]].
  split.
  - constructor; [exact Hle |].
    apply Forall_forall. intros c Hc.
    rewrite Forall_forall in Hall. apply Hall. now apply in_map.
  - destruct Hin as [Heq | Hin].
    + apply Exists_cons_hd. now symmetry.
    + apply Exists_cons_tl. apply Exists_exists.
      apply in_map_iff in Hin as [c [Hc Hin]]. now exists c.
Qed.

Lemma min_of_lows_series :
  forall (first : Candle) (rest : DataFrame),
    min_of_lows (series_min (Low first) (map Low rest)) (first :: rest).
Proof.
  intros first rest.
  destruct (series_min_spec (map Low rest) (Low first)) as [Hle [Hall Hin]].
  split.
  - constructor; [exact Hle |].
    apply Forall_forall. intros c Hc.
    rewrite Forall_forall in Hall. apply Hall. now apply in_map.
  - destruct Hin as [Heq | Hin].
    + apply Exists_cons_hd. now symmetry.
    + apply Exists_cons_tl. apply Exists_exists.
      apply in_map_iff in Hin as [c [Hc Hin]]. now exists c.
Qed.

(** The summary of a series whose first close is not zero. *)
Lemma stat_calculator_value :
  forall (first : Candle) (rest : DataFrame),
    ~ Close first == 0 ->
    stat_calculator (first :: rest)
    = Ok (mkStats (Close (last (first :: rest) first))
                  ((Close (last (first :: rest) first) - Close first) / Close first * 100)
                  (series_max (High first) (map High rest))
                  (series_min (Low first) (map Low rest))).
Proof.
  intros first rest Hnz.
  unfold stat_calculator, stat_calculator_with.
  rewrite iloc_last, iloc_first. cbn [bind].
  unfold py_div.
  destruct (Qeq_bool (Close first) 0) eqn:E.
  - apply Qeq_bool_iff in E. contradiction.
  - reflexivity.
Qed.

(** C5, as the code has it: for every non-empty candle series whose first
    close is not zero, the Stat Calculator returns current_price equal to the
    close of the last candle, percent_change equal to
    (last.close - first.close) / first.close * 100, high_price equal to the
    maximum of all highs and low_price equal to the minimum of all lows. *)
Theorem stat_calculator_nonempty :
  forall (first : Candle) (rest : DataFrame),
    ~ Close first == 0 ->
    exists st : Stats,
      stat_calculator (first :: rest) = Ok st /\ summary_spec first rest st.
Proof.
  intros first rest Hnz. eexists. split; [apply stat_calculator_value, Hnz |].
  unfold summary_spec. cbn [current_price percent_change high_price low_price].
  split; [reflexivity |]. split; [reflexivity |].
  split; [apply max_of_highs_series | apply min_of_lows_series].
Qed.

Lemma stat_calculator_nonempty_witness :
  ~ Close candle_a == 0
  /\ exists st : Stats,
       stat_calculator sample_df = Ok st /\ summary_spec candle_a [candle_b; candle_c] st.
Proof.
  assert (H : ~ Close candle_a == 0) by (vm_compute; discriminate).
  split; [exact H |].
  exact (stat_calculator_nonempty candle_a [candle_b; candle_c] H).
Defined.

(** C5 as worded fails on a series whose first close is zero: the division
    raises [ZeroDivisionError] and no summary is returned. *)
Lemma stat_calculator_zero_close_raises :
  stat_calculator [candle_zero] = Raise (ZeroDivisionError "float division by zero")
  /\ ~ (exists st : Stats,
          stat_calculator [candle_zero] = Ok st /\ summary_spec candle_zero [] st).
Proof.
  split; [reflexivity |].
  intros [st [H _]]. vm_compute in H. discriminate H.
Qed.

(** C6: for the empty series the Stat Calculator returns four zeros whatever
    the division does, so the division is not executed and cannot raise; the
    endpoint then answers with a real payload of zeros and an empty history. *)
Theorem stat_calculator_empty :
  forall (div : Q -> Q -> result Q),
    stat_calculator_with div [] = Ok (mkStats 0 0 0 0)
    /\ stat_calculator_with (fun _ _ => Raise (ZeroDivisionError "float division by zero")) []
       = Ok (mkStats 0 0 0 0)
    /\ stat_calculator [] = Ok (mkStats 0 0 0 0)
    /\ forall analyze ticker timeframe g,
         get_price_history
           (Some (mkTechnicalAnalysisService (mkAnalyzer (fun _ _ _ => Ok [])) analyze))
           ticker timeframe g
         = (Ok (Body (JDict [ ("ticker", JStr ticker);
                              ("current_price", JNum 0);
                              ("percent_change", JNum 0);
                              ("high_price", JNum 0);
                              ("low_price", JNum 0);
                              ("history", JList []);
                              ("timeframe", JStr timeframe) ])), g).
Proof.
  intro div.
  split; [reflexivity |]. split; [reflexivity |]. split; [reflexivity |].
  intros analyze ticker timeframe g.
  unfold get_price_history, price_history_pipeline.
  cbn [bind analyzer fetch_binance_ohlcv_with_fallback].
  rewrite resolve_timeframe_ok. reflexivity.
Qed.

Local Close Scope Q_scope.

(** ** Chart Formatter *)

Lemma append_empty_r : forall s : string, s ++ "" = s.
Proof.
  induction s as [| c s IH]; cbn; [reflexivity | now rewrite IH].
Qed.

Lemma append_assoc :
  forall a b c : string, (a ++ b) ++ c = a ++ (b ++ c).
Proof.
  induction a as [| x a IH]; intros b c; cbn; [reflexivity | now rewrite IH].
Qed.

(** The four format strings of the handler, read by [strftime]. *)
Lemma time_label_spec :
  forall (timeframe : string) (t : Timestamp),
    time_label timeframe t = label_spec timeframe t.
Proof.
  intros timeframe t. unfold time_label, label_spec.
  destruct (String.eqb timeframe "24H");
    [| destruct (String.eqb timeframe "7D");
       [| destruct (String.eqb timeframe "30D")]];
    cbn [strftime directive Ascii.eqb Bool.eqb];
    unfold hour_minute, weekday_abbr, month_abbr_of;
    cbn [append]; rewrite ?append_empty_r; reflexivity.
Qed.

Lemma chart_point_spec :
  forall (timeframe : string) (row : Candle),
    chart_point timeframe row = point_spec timeframe row.
Proof.
  intros. unfold chart_point, point_spec. now rewrite time_label_spec.
Qed.

Lemma chart_formatter_spec :
  forall (timeframe : string) (df : DataFrame),
    chart_formatter timeframe df = map (point_spec timeframe) df.
Proof.
  intros. rewrite chart_formatter_map.
  apply map_ext. intro row. apply chart_point_spec.
Qed.

(** C8: for every candle series and timeframe the Chart Formatter produces
    exactly one chart point per candle, in the order of the series, and the
    label of each point follows the timeframe: hour:minute for 24H, weekday
    and hour:minute for 7D, month and day for 30D, month, day and year for 1Y
    and for every other timeframe. *)
Theorem chart_formatter_points :
  forall (timeframe : string) (df : DataFrame),
    List.length (chart_formatter timeframe df) = List.length df
    /\ chart_formatter timeframe df = map (point_spec timeframe) df
    /\ (forall i : nat,
          nth_error (chart_formatter timeframe df) i
          = option_map (point_spec timeframe) (nth_error df i))
    /\ time_label "24H" (march_3 14 5) = "14:05"
    /\ time_label "7D" (march_3 14 5) = "Sun 14:05"
    /\ time_label "30D" (march_3 14 5) = "Mar 03"
    /\ time_label "1Y" (march_3 14 5) = "Mar 03 2024"
    /\ time_label "5Y" (march_3 14 5) = "Mar 03 2024".
Proof.
  intros timeframe df.
  split; [rewrite chart_formatter_spec; apply length_map |].
  split; [apply chart_formatter_spec |].
  split; [intro i; rewrite chart_formatter_spec; apply nth_error_map |].
  repeat split; reflexivity.
Qed.

(** ** Prices against the summary *)

Local Open Scope Q_scope.

Lemma randint_range :
  forall (a b : Z) (g : Random.state),
    (a <= b)%Z ->
    (a <= fst (Random.randint a b g) <= b)%Z.
Proof.
  intros a b g Hab. unfold Random.randint, Random.randbelow. cbn [fst].
  pose proof (Z.mod_pos_bound (Random.source g (Random.cursor g)) (b - a + 1)) as H.
  lia.
Qed.

Lemma mock_points_band :
  forall (range : list nat) (g : Random.state),
    Forall (price_in_band 49000 51000) (fst (mock_points range g)).
Proof.
  induction range as [| i rest IH]; intro g; [constructor |].
  cbn [mock_points].
  pose proof (randint_range (-1000) 1000 g ltac:(lia)) as Hr.
  destruct (Random.randint (-1000) 1000 g) as [r g1]. cbn [fst] in Hr.
  specialize (IH g1).
  destruct (mock_points rest g1) as [pts g2]. cbn [fst] in *.
  constructor; [| exact IH].
  exists (inject_Z (50000 + r)). split; [reflexivity |].
  change 49000 with (inject_Z 49000). change 51000 with (inject_Z 51000).
  rewrite <- !Zle_Qle. lia.
Qed.

Lemma price_in_band_weaken :
  forall (lo hi lo' hi' : Q) (entry : json),
    lo' <= lo -> hi <= hi' ->
    price_in_band lo hi entry -> price_in_band lo' hi' entry.
Proof.
  intros lo hi lo' hi' entry Hlo Hhi [p [Hp [H1 H2]]].
  exists p. split; [exact Hp |].
  split; eapply Qle_trans; eassumption.
Qed.

Lemma mock_payload_band :
  forall (ticker : string) (g : Random.state),
    mock_band (fst (mock_payload ticker g))
    /\ prices_within (fst (mock_payload ticker g)).
Proof.
  intros ticker g. rewrite mock_payload_shape.
  assert (Hband : Forall (price_in_band 49000 51000)
                    (history_of
                       (JDict [ ("ticker", JStr ticker);
                                ("current_price", JNum 50000);
                                ("percent_change", JNum 2.5);
                                ("high_price", JNum 52000);
                                ("low_price", JNum 48000);
                                ("history", JList (fst (mock_points (seq 0 points) g)));
                                ("is_mock", JBool true) ])))
    by apply mock_points_band.
  split.
  - repeat split; try reflexivity. exact Hband.
  - exists 48000, 52000. split; [reflexivity |]. split; [reflexivity |].
    eapply Forall_impl; [| exact Hband].
    intros entry. apply price_in_band_weaken; unfold Qle; cbn; lia.
Qed.

Lemma stat_calculator_inv :
  forall (first : Candle) (rest : DataFrame) (st : Stats),
    stat_calculator (first :: rest) = Ok st ->
    high_price st = series_max (High first) (map High rest)
    /\ low_price st = series_min (Low first) (map Low rest).
Proof.
  intros first rest st H.
  unfold stat_calculator, stat_calculator_with in H.
  rewrite iloc_last, iloc_first in H. cbn [bind] in H.
  destruct (py_div _ _) as [ratio | e]; cbn [bind] in H; [| discriminate].
  injection H as <-. split; reflexivity.
Qed.

Lemma real_payload_within :
  forall ts ticker timeframe payload,
    (forall svc symbol itv lim df,
        ts = Some svc ->
        fetch_binance_ohlcv_with_fallback (analyzer svc) symbol itv lim = Ok df ->
        Forall close_in_range df) ->
    price_history_pipeline ts ticker timeframe = Ok payload ->
    prices_within payload.
Proof.
  intros ts ticker timeframe payload Hsane H.
  unfold price_history_pipeline in H.
  destruct ts as [svc |]; cbn [bind] in H; [| discriminate].
  destruct (resolve_timeframe timeframe) as [config | e]; cbn [bind] in H; [| discriminate].
  destruct (fetch_binance_ohlcv_with_fallback _ _ _ _) as [df | e] eqn:Hfetch;
    cbn [bind] in H; [| discriminate].
  specialize (Hsane svc _ _ _ df eq_refl Hfetch).
  destruct (stat_calculator df) as [st | e] eqn:Hst; cbn [bind] in H; [| discriminate].
  injection H as <-.
  exists (low_price st), (high_price st).
  split; [reflexivity |]. split; [reflexivity |].
  unfold history_of. cbn [get lookup String.eqb Ascii.eqb Bool.eqb].
  rewrite chart_formatter_map.
  destruct df as [| first rest]; [constructor |].
  destruct (stat_calculator_inv first rest st Hst) as [Hhi Hlo].
  destruct (max_of_highs_series first rest) as [Hmax _].
  destruct (min_of_lows_series first rest) as [Hmin _].
  rewrite <- Hhi in Hmax. rewrite <- Hlo in Hmin.
  rewrite Forall_forall in Hsane, Hmax, Hmin.
  apply Forall_forall. intros entry Hin.
  apply in_map_iff in Hin as [row [<- Hrow]].
  exists (Close row). split; [reflexivity |].
  destruct (Hsane row Hrow) as [H1 H2].
  split; eapply Qle_trans; eauto.
Qed.

(** C10: in every price-history response, real or mock, every price of the
    history lies between low_price and high_price inclusive: for a real
    payload whenever every fetched candle has low <= close <= high, and for
    the mock payload with prices in [49000, 51000], low_price 48000 and
    high_price 52000. *)
Theorem price_history_prices_within :
  forall (ts : option TechnicalAnalysisService) (ticker timeframe : string)
         (g : Random.state),
    (forall svc symbol itv lim df,
        ts = Some svc ->
        fetch_binance_ohlcv_with_fallback (analyzer svc) symbol itv lim = Ok df ->
        Forall close_in_range df) ->
    exists payload : json,
      fst (get_price_history ts ticker timeframe g) = Ok (Body payload)
      /\ prices_within payload
      /\ (price_history_pipeline ts ticker timeframe = Ok payload
          \/ (exists e, price_history_pipeline ts ticker timeframe = Raise e)
             /\ mock_band payload).
Proof.
  intros ts ticker timeframe g Hsane.
  destruct (get_price_history_cases ts ticker timeframe g)
    as [[payload [Hp Hr]] | [e [Hp Hr]]].
  - exists payload. split; [exact Hr |].
    split; [eapply real_payload_within; eassumption | now left].
  - exists (fst (mock_payload ticker g)). split; [exact Hr |].
    destruct (mock_payload_band ticker g) as [Hband Hwithin].
    split; [exact Hwithin |]. right. split; [now exists e | exact Hband].
Qed.

Lemma sample_df_close_in_range : Forall close_in_range sample_df.
Proof.
  repeat constructor; unfold Qle; cbn; lia.
Qed.

Lemma price_history_prices_within_witness :
  exists payload : json,
    fst (get_price_history (Some sample_service) "BTCUSDT" "7D" zero_rng)
    = Ok (Body payload)
    /\ prices_within payload
    /\ (price_history_pipeline (Some sample_service) "BTCUSDT" "7D" = Ok payload
        \/ (exists e, price_history_pipeline (Some sample_service) "BTCUSDT" "7D" = Raise e)
           /\ mock_band payload).
Proof.
  apply (price_history_prices_within (Some sample_service) "BTCUSDT" "7D" zero_rng).
  intros svc symbol itv lim df Hsvc Hfetch.
  injection Hsvc as <-. cbn in Hfetch. injection Hfetch as <-.
  exact sample_df_close_in_range.
Defined.

Local Close Scope Q_scope.

(** ** Dates through formatting and parsing *)

Section RoundTrip.

Import IsoParse.
Local Open Scope N_scope.

Lemma digit_val_digit :
  forall d : N, d < 10 -> digit_val (digit d) = Some d.
Proof.
  intros d Hd. unfold digit_val, digit.
  rewrite N_ascii_embedding by lia.
  replace ((48 <=? 48 + d) && (48 + d <=? 57))%bool with true
    by (symmetry; apply andb_true_iff; split; apply N.leb_le; lia).
  f_equal. lia.
Qed.

Lemma pow10_pos : forall w : nat, 0 < 10 ^ N.of_nat w.
Proof.
  intro w. apply N.neq_0_lt_0, N.pow_nonzero. discriminate.
Qed.

Lemma pow10_succ : forall w : nat, 10 ^ N.of_nat (S w) = 10 * 10 ^ N.of_nat w.
Proof.
  intro w. rewrite Nat2N.inj_succ. apply N.pow_succ_r'.
Qed.

Lemma leading_digit :
  forall (w : nat) (n : N),
    n < 10 ^ N.of_nat (S w) ->
    n / 10 ^ N.of_nat w < 10
    /\ n mod 10 ^ N.of_nat w < 10 ^ N.of_nat w
    /\ n = 10 ^ N.of_nat w * (n / 10 ^ N.of_nat w) + n mod 10 ^ N.of_nat w.
Proof.
  intros w n Hn. rewrite pow10_succ in Hn.
  pose proof (pow10_pos w) as Hp.
  split; [apply N.Div0.div_lt_upper_bound; lia |].
  split; [apply N.mod_lt; lia | apply N.div_mod'].
Qed.

Lemma read_fixed_pad :
  forall (w : nat) (n acc : N) (rest : string),
    n < 10 ^ N.of_nat w ->
    read_fixed w (pad w n ++ rest) acc = Some (acc * 10 ^ N.of_nat w + n, rest).
Proof.
  induction w as [| w IH]; intros n acc rest Hn.
  - cbn in *. f_equal. f_equal. lia.
  - destruct (leading_digit w n Hn) as [Hq [Hr Hdiv]].
    cbn [pad append read_fixed].
    rewrite digit_val_digit by exact Hq.
    rewrite IH by exact Hr.
    f_equal. f_equal. rewrite pow10_succ.
    set (p := 10 ^ N.of_nat w) in *.
    set (q := n / p) in *. set (r := n mod p) in *.
    rewrite Hdiv. ring.
Qed.

Lemma read_run_pad :
  forall (w : nat) (n acc : N) (cnt : nat) (rest : string),
    n < 10 ^ N.of_nat w ->
    read_run (pad w n ++ rest) acc cnt
    = read_run rest (acc * 10 ^ N.of_nat w + n) (cnt + w).
Proof.
  induction w as [| w IH]; intros n acc cnt rest Hn.
  - cbn in *. f_equal; lia.
  - destruct (leading_digit w n Hn) as [Hq [Hr Hdiv]].
    cbn [pad append read_run].
    rewrite digit_val_digit by exact Hq.
    rewrite IH by exact Hr.
    rewrite pow10_succ.
    set (p := 10 ^ N.of_nat w) in *.
    set (q := n / p) in *. set (r := n mod p) in *.
    f_equal; [| lia].
    rewrite Hdiv. ring.
Qed.

Lemma format_0d_pad :
  forall (w : nat) (n : N), n < 10 ^ N.of_nat w -> format_0d w n = pad w n.
Proof.
  intros w n Hn. unfold format_0d.
  apply N.ltb_lt in Hn. now rewrite Hn.
Qed.

Lemma days_in_month_le_31 : forall y m : N, days_in_month y m <= 31.
Proof.
  intros y m. unfold days_in_month.
  destruct ((m =? 2) && is_leap y)%bool; [lia |].
  destruct (nth_in_or_default (N.to_nat (m - 1)) DAYS_IN_MONTH 0) as [Hin | ->]; [| lia].
  revert Hin. generalize (nth (N.to_nat (m - 1)) DAYS_IN_MONTH 0). intros v Hin.
  unfold DAYS_IN_MONTH in Hin. cbn [In] in Hin.
  repeat (destruct Hin as [<- | Hin]; [lia |]). contradiction.
Qed.

Lemma validb_of_valid : forall t : Timestamp, valid t -> validb t = true.
Proof.
  intros t (Hy & Hm & Hd & Hh & Hmi & Hs & Hus & Hns). unfold validb.
  repeat (apply andb_true_iff; split);
    try (apply N.leb_le; lia); apply N.ltb_lt; lia.
Qed.

(** [isoformat] in one piece: the fixed-width fields, then the fraction. *)
Lemma isoformat_canonical :
  forall t : Timestamp,
    valid t ->
    isoformat t
    = (pad 4 (year t) ++ "-" ++ pad 2 (month t) ++ "-" ++ pad 2 (day t) ++ "T"
       ++ pad 2 (hour t) ++ ":" ++ pad 2 (minute t) ++ ":" ++ pad 2 (second t)
       ++ fraction t)%string.
Proof.
  intros t (Hy & Hm & Hd & Hh & Hmi & Hs & Hus & Hns).
  pose proof (days_in_month_le_31 (year t) (month t)) as Hdim.
  unfold isoformat, datetime_isoformat, fraction.
  rewrite (format_0d_pad 4 (year t)) by (cbn; lia).
  rewrite (format_0d_pad 2 (month t)) by (cbn; lia).
  rewrite (format_0d_pad 2 (day t)) by (cbn; lia).
  rewrite (format_0d_pad 2 (hour t)) by (cbn; lia).
  rewrite (format_0d_pad 2 (minute t)) by (cbn; lia).
  rewrite (format_0d_pad 2 (second t)) by (cbn; lia).
  rewrite (format_0d_pad 6 (microsecond t)) by (cbn; lia).
  rewrite (format_0d_pad 9 (nanosecond t)) by (cbn; lia).
  rewrite (format_0d_pad 3 (nanosecond t)) by (cbn; lia).
  destruct (N.eqb (nanosecond t) 0); destruct (N.eqb (microsecond t) 0);
    rewrite ?append_assoc; reflexivity.
Qed.

Lemma read_run_exact :
  forall (w : nat) (n : N),
    n < 10 ^ N.of_nat w ->
    read_run (pad w n) 0 0 = (n, w, EmptyString).
Proof.
  intros w n Hn. rewrite <- (append_empty_r (pad w n)).
  rewrite read_run_pad by exact Hn. reflexivity.
Qed.

Lemma read_fraction_fraction :
  forall t : Timestamp,
    microsecond t < 1000000 -> nanosecond t < 1000 ->
    read_fraction (fraction t) = Some (subsecond t, EmptyString).
Proof.
  intros t Hus Hns. unfold fraction, subsecond.
  destruct (N.eqb_spec (nanosecond t) 0) as [Hn0 | Hn0];
    destruct (N.eqb_spec (microsecond t) 0) as [Hu0 | Hu0].
  - rewrite Hn0, Hu0. reflexivity.
  - cbn [append read_fraction]. change (Ascii.eqb "." ".") with true. cbn iota.
    rewrite read_run_exact by (cbn; lia).
    cbn. rewrite Hn0. f_equal. f_equal. lia.
  - cbn [append read_fraction]. change (Ascii.eqb "." ".") with true. cbn iota.
    rewrite read_run_exact by (cbn; lia).
    cbn. rewrite Hu0. f_equal. f_equal. lia.
  - cbn [append read_fraction]. change (Ascii.eqb "." ".") with true. cbn iota.
    rewrite read_run_pad by (cbn; lia).
    rewrite <- (append_empty_r (pad 3 (nanosecond t))).
    rewrite read_run_pad by (cbn; lia).
    cbn. f_equal. f_equal. lia.
Qed.

Lemma subsecond_split :
  forall t : Timestamp,
    nanosecond t < 1000 ->
    subsecond t / 1000 = microsecond t /\ subsecond t mod 1000 = nanosecond t.
Proof.
  intros t Hns. unfold subsecond. split; symmetry.
  - apply (N.div_unique _ 1000 _ (nanosecond t)); lia.
  - apply (N.mod_unique _ 1000 (microsecond t)); lia.
Qed.

(** Reading a printed timestamp gives the timestamp back. *)
Lemma fromisoformat_isoformat :
  forall t : Timestamp, valid t -> fromisoformat (isoformat t) = Some t.
Proof.
  intros t Hvalid.
  rewrite isoformat_canonical by exact Hvalid.
  pose proof (validb_of_valid t Hvalid) as Hb.
  destruct Hvalid as (Hy & Hm & Hd & Hh & Hmi & Hs & Hus & Hns).
  pose proof (days_in_month_le_31 (year t) (month t)) as Hdim.
  cbv beta delta [fromisoformat].
  do 5 (rewrite read_fixed_pad by (cbn; lia);
        cbn [obind append expect Ascii.eqb Bool.eqb andb]).
  rewrite read_fixed_pad by (cbn; lia).
  cbn [obind].
  rewrite read_fraction_fraction by assumption.
  cbn [obind].
  destruct (subsecond_split t Hns) as [-> ->].
  rewrite !N.mul_0_l, !N.add_0_l.
  destruct t; cbn in *. now rewrite Hb.
Qed.

End RoundTrip.

Lemma date_of_chart_point :
  forall (timeframe : string) (row : Candle),
    valid (index row) ->
    date_of (chart_point timeframe row) = Some (index row).
Proof.
  intros timeframe row Hvalid. unfold date_of, chart_point.
  cbn [get lookup String.eqb Ascii.eqb Bool.eqb].
  now apply fromisoformat_isoformat.
Qed.

Lemma sorted_consecutive :
  forall (A : Type) (R : A -> A -> Prop) (l : list A) (i : nat) (a b : A),
    Sorted R l ->
    nth_error l i = Some a ->
    nth_error l (S i) = Some b ->
    R a b.
Proof.
  intros A R l. induction l as [| x l IH]; intros i a b Hs Ha Hb.
  - destruct i; discriminate.
  - apply Sorted_inv in Hs as [Hs Hhd].
    destruct i as [| i].
    + cbn in Ha, Hb. injection Ha as ->.
      destruct l as [| y l]; [discriminate |].
      cbn in Hb. injection Hb as ->.
      now apply HdRel_inv in Hhd.
    + cbn in Ha, Hb. eapply IH; eassumption.
Qed.

(** C9: for every candle series with strictly ascending timestamps, the date
    of each chart point, read back from its canonical form, is strictly
    greater than the date of the point before it. *)
Theorem history_dates_ascending :
  forall (timeframe : string) (df : DataFrame),
    Forall (fun c => valid (index c)) df ->
    ascending df ->
    forall (i : nat) (a b : json),
      nth_error (chart_formatter timeframe df) i = Some a ->
      nth_error (chart_formatter timeframe df) (S i) = Some b ->
      exists ta tb : Timestamp,
        date_of a = Some ta /\ date_of b = Some tb /\ Datetime.lt ta tb.
Proof.
  intros timeframe df Hvalid Hasc i a b Ha Hb.
  rewrite chart_formatter_map, nth_error_map in Ha, Hb.
  destruct (nth_error df i) as [ra |] eqn:Hra; [| discriminate].
  destruct (nth_error df (S i)) as [rb |] eqn:Hrb; [| discriminate].
  cbn in Ha, Hb. injection Ha as <-. injection Hb as <-.
  rewrite Forall_forall in Hvalid.
  exists (index ra), (index rb).
  split; [apply date_of_chart_point, Hvalid; eapply nth_error_In; eassumption |].
  split; [apply date_of_chart_point, Hvalid; eapply nth_error_In; eassumption |].
  exact (sorted_consecutive _ _ df i ra rb Hasc Hra Hrb).
Qed.

Lemma valid_of_validb : forall t : Timestamp, validb t = true -> valid t.
Proof.
  intros t H. unfold validb in H.
  repeat (apply andb_true_iff in H as [H ?]).
  repeat match goal with
         | Hle : N.leb _ _ = true |- _ => apply N.leb_le in Hle
         | Hlt : N.ltb _ _ = true |- _ => apply N.ltb_lt in Hlt
         end.
  unfold valid. repeat split; assumption.
Qed.

Lemma sample_df_valid : Forall (fun c => valid (index c)) sample_df.
Proof.
  unfold sample_df.
  repeat (apply Forall_cons; [apply valid_of_validb; reflexivity |]).
  apply Forall_nil.
Qed.

Lemma sample_df_ascending : ascending sample_df.
Proof.
  unfold ascending, sample_df.
  repeat constructor; unfold Datetime.lt; vm_compute; reflexivity.
Qed.

Lemma history_dates_ascending_witness :
  exists ta tb : Timestamp,
    date_of (chart_point "24H" candle_a) = Some ta
    /\ date_of (chart_point "24H" candle_b) = Some tb
    /\ Datetime.lt ta tb.
Proof.
  apply (history_dates_ascending "24H" sample_df
           sample_df_valid sample_df_ascending 0%nat); reflexivity.
Defined.

(** * Further properties of the handlers *)

(** ** When the price-history endpoint degrades *)

Lemma price_history_pipeline_some :
  forall (svc : TechnicalAnalysisService) (ticker timeframe : string),
    price_history_pipeline (Some svc) ticker timeframe
    = (df <- fetch_binance_ohlcv_with_fallback (analyzer svc) ticker
               (interval (resolver_table timeframe)) (limit (resolver_table timeframe)) ;;
       stats <- stat_calculator df ;;
       Ok (JDict [ ("ticker", JStr ticker);
                   ("current_price", JNum (current_price stats));
                   ("percent_change", JNum (percent_change stats));
                   ("high_price", JNum (high_price stats));
                   ("low_price", JNum (low_price stats));
                   ("history", JList (chart_formatter timeframe df));
                   ("timeframe", JStr timeframe) ])).
Proof.
  intros svc ticker timeframe. unfold price_history_pipeline.
  cbn [bind]. rewrite resolve_timeframe_ok. reflexivity.
Qed.

Lemma stat_calculator_zero_close :
  forall (first : Candle) (rest : DataFrame),
    (Close first == 0)%Q ->
    stat_calculator (first :: rest) = Raise (ZeroDivisionError "float division by zero").
Proof.
  intros first rest Hz.
  unfold stat_calculator, stat_calculator_with.
  rewrite iloc_last, iloc_first. cbn [bind]. unfold py_div.
  apply Qeq_bool_iff in Hz. now rewrite Hz.
Qed.

(** X1: the price-history pipeline succeeds exactly when the service exists,
    the fetch at the resolved interval and limit returns a frame, and that
    frame is empty or starts with a candle whose close is not zero; the
    handler then returns the payload of the pipeline.  In every other case
    the handler returns the mock payload, which is answered with 200. *)
Theorem price_history_real_iff :
  forall (ts : option TechnicalAnalysisService) (ticker timeframe : string)
         (g : Random.state),
    ((exists payload, price_history_pipeline ts ticker timeframe = Ok payload)
     <-> usable_frame ts ticker timeframe)
    /\ ((usable_frame ts ticker timeframe
         /\ exists payload,
              price_history_pipeline ts ticker timeframe = Ok payload
              /\ fst (get_price_history ts ticker timeframe g) = Ok (Body payload))
        \/ (~ usable_frame ts ticker timeframe
            /\ fst (get_price_history ts ticker timeframe g)
               = Ok (Body (fst (mock_payload ticker g)))
            /\ price_history_response ts ticker timeframe g
               = JSONResponse 200 (fst (mock_payload ticker g)))).
Proof.
  intros ts ticker timeframe g.
  assert (Hiff : (exists payload, price_history_pipeline ts ticker timeframe = Ok payload)
                 <-> usable_frame ts ticker timeframe).
  { unfold usable_frame. split.
    - intros [payload H].
      destruct ts as [svc |]; [| discriminate H].
      rewrite price_history_pipeline_some in H.
      destruct (fetch_binance_ohlcv_with_fallback _ _ _ _) as [df | e] eqn:Hfetch;
        cbn [bind] in H; [| discriminate H].
      exists svc, df. split; [reflexivity |]. split; [exact Hfetch |].
      destruct df as [| first rest]; [now left | right].
      exists first, rest. split; [reflexivity |].
      intro Hz. rewrite (stat_calculator_zero_close first rest Hz) in H.
      discriminate H.
    - intros [svc [df [-> [Hfetch Hdf]]]].
      rewrite price_history_pipeline_some, Hfetch. cbn [bind].
      destruct Hdf as [-> | [first [rest [-> Hnz]]]].
      + eexists. reflexivity.
      + rewrite (stat_calculator_value first rest Hnz). eexists. reflexivity. }
  split; [exact Hiff |].
  unfold price_history_response.
  destruct (get_price_history_cases ts ticker timeframe g)
    as [[payload [Hp Hr]] | [e [Hp Hr]]].
  - left. split; [apply Hiff; now exists payload |].
    exists payload. now split.
  - right. split.
    + intro Hu. apply Hiff in Hu as [payload Hok].
      rewrite Hp in Hok. discriminate Hok.
    + split; [exact Hr |]. now rewrite Hr.
Qed.

Lemma price_history_pipeline64_some :
  forall series_max series_min (svc : Float64.TechnicalAnalysisService)
         (ticker timeframe : string),
    Float64.price_history_pipeline series_max series_min (Some svc) ticker timeframe
    = (df <- Float64.fetch_binance_ohlcv_with_fallback (Float64.analyzer svc) ticker
               (interval (resolver_table timeframe)) (limit (resolver_table timeframe)) ;;
       stats <- Float64.stat_calculator series_max series_min df ;;
       Ok (Float64.PDict
             [ ("ticker", Float64.PStr ticker);
               ("current_price", Float64.current_price stats);
               ("percent_change", Float64.percent_change stats);
               ("high_price", Float64.high_price stats);
               ("low_price", Float64.low_price stats);
               ("history", Float64.PList (Float64.chart_formatter timeframe df));
               ("timeframe", Float64.PStr timeframe) ])).
Proof.
  intros. unfold Float64.price_history_pipeline.
  cbn [bind]. rewrite resolve_timeframe_ok. reflexivity.
Qed.

(** X2: whatever the price-history handler returns echoes the ticker; a real
    payload echoes the requested timeframe and has no [is_mock] field, the
    mock payload has [is_mock] true and no [timeframe] field, so the marker
    is present exactly when the pipeline failed.  The response carries that
    payload with status 200 when every number in it is finite, and is a bare
    500 otherwise. *)
Theorem price_history_marker :
  forall (series_max series_min : list Float64.float -> Float64.float)
         (ts : option Float64.TechnicalAnalysisService)
         (ticker timeframe : string) (g : Random.state),
    exists payload : Float64.pyval,
      fst (Float64.get_price_history series_max series_min ts ticker timeframe g)
      = Ok payload
      /\ Float64.get "ticker" payload = Some (Float64.PStr ticker)
      /\ ((Float64.price_history_pipeline series_max series_min ts ticker timeframe
           = Ok payload
           /\ Float64.get "is_mock" payload = None
           /\ Float64.get "timeframe" payload = Some (Float64.PStr timeframe))
          \/ ((exists e,
                 Float64.price_history_pipeline series_max series_min ts ticker timeframe
                 = Raise e)
              /\ Float64.get "is_mock" payload = Some (Float64.PBool true)
              /\ Float64.get "timeframe" payload = None))
      /\ Float64.price_history_response series_max series_min ts ticker timeframe g
         = (if Float64.compliant payload
            then Float64.mkResponse 200 payload
            else Float64.mkResponse 500 (Float64.PStr "Internal Server Error")).
Proof.
  intros series_max series_min ts ticker timeframe g.
  unfold Float64.price_history_response.
  destruct (get_price_history64_cases series_max series_min ts ticker timeframe g)
    as [[payload [Hp Hr]] | [e [Hp Hr]]]; rewrite Hr.
  - exists payload. split; [reflexivity |].
    assert (Hshape : Float64.get "ticker" payload = Some (Float64.PStr ticker)
                     /\ Float64.get "is_mock" payload = None
                     /\ Float64.get "timeframe" payload = Some (Float64.PStr timeframe)).
    { destruct ts as [svc |]; [| discriminate Hp].
      rewrite price_history_pipeline64_some in Hp.
      destruct (Float64.fetch_binance_ohlcv_with_fallback _ _ _ _) as [df | e];
        cbn [bind] in Hp; [| discriminate Hp].
      destruct (Float64.stat_calculator series_max series_min df) as [st | e];
        cbn [bind] in Hp; [| discriminate Hp].
      injection Hp as <-. repeat split. }
    destruct Hshape as [Ht [Hm Htf]].
    split; [exact Ht |].
    split; [left; repeat split; assumption | reflexivity].
  - exists (fst (Float64.mock_payload ticker g)). split; [reflexivity |].
    unfold Float64.respond. rewrite mock_payload64_compliant.
    rewrite mock_payload64_shape.
    split; [reflexivity |].
    split; [| reflexivity].
    right. split; [now exists e |]. split; reflexivity.
Qed.

(** X3: a timeframe outside the four of the table fetches with the 24H
    configuration (15m, 96) but labels every point with the month, day and
    year format of the 1Y branch, and echoes the requested string. *)
Theorem unrecognised_timeframe_pipeline :
  forall (svc : TechnicalAnalysisService) (ticker timeframe : string),
    timeframe <> "24H" -> timeframe <> "7D" ->
    timeframe <> "30D" -> timeframe <> "1Y" ->
    price_history_pipeline (Some svc) ticker timeframe
    = (df <- fetch_binance_ohlcv_with_fallback (analyzer svc) ticker "15m" 96 ;;
       stats <- stat_calculator df ;;
       Ok (JDict [ ("ticker", JStr ticker);
                   ("current_price", JNum (current_price stats));
                   ("percent_change", JNum (percent_change stats));
                   ("high_price", JNum (high_price stats));
                   ("low_price", JNum (low_price stats));
                   ("history",
                    JList (map (fun row =>
                                  JDict [ ("time",
                                           JStr (month_abbr_of (index row) ++ " "
                                                 ++ format_0d 2 (day (index row)) ++ " "
                                                 ++ format_0d 4 (year (index row))));
                                          ("price", JNum (Close row));
                                          ("date", JStr (isoformat (index row))) ]) df));
                   ("timeframe", JStr timeframe) ])).
Proof.
  intros svc ticker timeframe H24 H7 H30 H1.
  apply String.eqb_neq in H24, H7, H30, H1.
  rewrite price_history_pipeline_some.
  unfold resolver_table. rewrite H24, H7, H30, H1. cbn [interval limit].
  destruct (fetch_binance_ohlcv_with_fallback _ _ _ _) as [df | e]; [| reflexivity].
  cbn [bind]. destruct (stat_calculator df) as [st | e]; [| reflexivity].
  cbn [bind]. rewrite chart_formatter_spec.
  assert (Hext : forall row : Candle,
             point_spec timeframe row
             = JDict [ ("time",
                        JStr (month_abbr_of (index row) ++ " "
                              ++ format_0d 2 (day (index row)) ++ " "
                              ++ format_0d 4 (year (index row))));
                       ("price", JNum (Close row));
                       ("date", JStr (isoformat (index row))) ]).
  { intro row. unfold point_spec, label_spec. now rewrite H24, H7, H30. }
  rewrite (map_ext _ _ Hext). reflexivity.
Qed.

Lemma unrecognised_timeframe_pipeline_witness :
  exists payload : json,
    price_history_pipeline (Some sample_service) "BTCUSDT" "5Y" = Ok payload
    /\ get "timeframe" payload = Some (JStr "5Y").
Proof.
  rewrite (unrecognised_timeframe_pipeline sample_service "BTCUSDT" "5Y");
    try (intro H; discriminate H).
  eexists. split; reflexivity.
Defined.

(** ** More on the summary *)

Local Open Scope Q_scope.

Lemma stat_calculator_ok_nonzero :
  forall (first : Candle) (rest : DataFrame) (st : Stats),
    stat_calculator (first :: rest) = Ok st -> ~ Close first == 0.
Proof.
  intros first rest st H Hz.
  rewrite (stat_calculator_zero_close first rest Hz) in H. discriminate H.
Qed.

Lemma last_in :
  forall (A : Type) (l : list A) (x d : A), In (last (x :: l) d) (x :: l).
Proof.
  intros A l. induction l as [| y l IH]; intros x d.
  - now left.
  - right. exact (IH y d).
Qed.

Lemma last_map_cons :
  forall (A B : Type) (f : A -> B) (l : list A) (x d : A) (d' : B),
    last (map f (x :: l)) d' = f (last (x :: l) d).
Proof.
  intros A B f l. induction l as [| y l IH]; intros x d d'.
  - reflexivity.
  - exact (IH y d d').
Qed.

(** X6: a series of one candle with a non-zero close has that close as
    current price, a percent change of zero, and the candle's own high and
    low as high_price and low_price. *)
Theorem stat_calculator_single_candle :
  forall c : Candle,
    ~ Close c == 0 ->
    exists st : Stats,
      stat_calculator [c] = Ok st
      /\ current_price st = Close c
      /\ percent_change st == 0
      /\ high_price st = High c
      /\ low_price st = Low c.
Proof.
  intros c Hnz. eexists. split; [apply (stat_calculator_value c [] Hnz) |].
  cbn [current_price percent_change high_price low_price last map].
  split; [reflexivity |]. split; [| split; reflexivity].
  field. exact Hnz.
Qed.

Lemma stat_calculator_single_candle_witness :
  exists st : Stats,
    stat_calculator [candle_a] = Ok st
    /\ current_price st = 105
    /\ percent_change st == 0
    /\ high_price st = 110
    /\ low_price st = 95.
Proof.
  apply (stat_calculator_single_candle candle_a).
  vm_compute. discriminate.
Defined.

Lemma percent_sign :
  forall a b : Q,
    0 < b -> ((a - b) / b * 100 ?= 0) = (a ?= b).
Proof.
  intros a b Hb.
  assert (Hnz : ~ b == 0) by (intro H; rewrite H in Hb; exact (Qlt_irrefl 0 Hb)).
  assert (Hinv : 0 < / b) by now apply Qinv_lt_0_compat.
  destruct (Qcompare_spec a b) as [Heq | Hlt | Hgt].
  - apply Qeq_alt. rewrite Heq. field. exact Hnz.
  - apply Qlt_alt. apply Qlt_minus_iff.
    assert (E : 0 + - ((a - b) / b * 100) == (b + - a) * / b * 100) by (field; exact Hnz).
    rewrite E.
    apply Qmult_lt_0_compat; [| reflexivity].
    apply Qmult_lt_0_compat; [| exact Hinv].
    now apply Qlt_minus_iff in Hlt.
  - apply Qgt_alt.
    assert (E : (a - b) / b * 100 == (a + - b) * / b * 100) by (field; exact Hnz).
    rewrite E.
    apply Qmult_lt_0_compat; [| reflexivity].
    apply Qmult_lt_0_compat; [| exact Hinv].
    now apply Qlt_minus_iff in Hgt.
Qed.

(** X7: when the first close is positive, the sign of percent_change is the
    sign of the move from the first close to the last close: positive for a
    rise, negative for a fall, zero when they are equal. *)
Theorem percent_change_sign :
  forall (first : Candle) (rest : DataFrame),
    0 < Close first ->
    exists st : Stats,
      stat_calculator (first :: rest) = Ok st
      /\ (percent_change st ?= 0) = (Close (last (first :: rest) first) ?= Close first).
Proof.
  intros first rest Hpos.
  assert (Hnz : ~ Close first == 0)
    by (intro H; rewrite H in Hpos; exact (Qlt_irrefl 0 Hpos)).
  eexists. split; [apply (stat_calculator_value first rest Hnz) |].
  cbn [percent_change]. now apply percent_sign.
Qed.

Lemma percent_change_sign_witness :
  exists st : Stats,
    stat_calculator sample_df = Ok st
    /\ (percent_change st ?= 0) = Lt.
Proof.
  apply (percent_change_sign candle_a [candle_b; candle_c]).
  reflexivity.
Defined.

(** X8: when every candle has low <= close <= high and the first close is
    not zero, the summary satisfies low_price <= current_price <= high_price. *)
Theorem summary_brackets_current_price :
  forall (first : Candle) (rest : DataFrame),
    Forall close_in_range (first :: rest) ->
    ~ Close first == 0 ->
    exists st : Stats,
      stat_calculator (first :: rest) = Ok st
      /\ low_price st <= current_price st
      /\ current_price st <= high_price st
      /\ low_price st <= high_price st.
Proof.
  intros first rest Hsane Hnz.
  eexists. split; [apply (stat_calculator_value first rest Hnz) |].
  cbn [current_price high_price low_price].
  destruct (max_of_highs_series first rest) as [Hmax _].
  destruct (min_of_lows_series first rest) as [Hmin _].
  rewrite Forall_forall in Hsane, Hmax, Hmin.
  pose proof (last_in _ rest first first) as Hin.
  destruct (Hsane _ Hin) as [H1 H2].
  assert (Hlo : series_min (Low first) (map Low rest) <= Close (last (first :: rest) first))
    by (eapply Qle_trans; [apply (Hmin _ Hin) | exact H1]).
  assert (Hhi : Close (last (first :: rest) first) <= series_max (High first) (map High rest))
    by (eapply Qle_trans; [exact H2 | apply (Hmax _ Hin)]).
  split; [exact Hlo |]. split; [exact Hhi |].
  eapply Qle_trans; eassumption.
Qed.

Lemma summary_brackets_current_price_witness :
  exists st : Stats,
    stat_calculator sample_df = Ok st
    /\ low_price st <= current_price st
    /\ current_price st <= high_price st
    /\ low_price st <= high_price st.
Proof.
  apply (summary_brackets_current_price candle_a [candle_b; candle_c]).
  - exact sample_df_close_in_range.
  - vm_compute. discriminate.
Defined.

(** X9: in a real answer over a non-empty series, current_price is the price
    of the last chart point and the base of percent_change is the price of
    the first chart point. *)
Theorem current_price_is_last_point :
  forall (timeframe : string) (first : Candle) (rest : DataFrame),
    ~ Close first == 0 ->
    exists (st : Stats) (base : Q),
      stat_calculator (first :: rest) = Ok st
      /\ get "price" (last (chart_formatter timeframe (first :: rest)) (JDict []))
         = Some (JNum (current_price st))
      /\ get "price" (hd (JDict []) (chart_formatter timeframe (first :: rest)))
         = Some (JNum base)
      /\ percent_change st = (current_price st - base) / base * 100.
Proof.
  intros timeframe first rest Hnz.
  exists (mkStats (Close (last (first :: rest) first))
                  ((Close (last (first :: rest) first) - Close first) / Close first * 100)
                  (series_max (High first) (map High rest))
                  (series_min (Low first) (map Low rest))),
         (Close first).
  split; [apply (stat_calculator_value first rest Hnz) |].
  rewrite chart_formatter_map.
  rewrite (last_map_cons _ _ (chart_point timeframe) rest first first).
  repeat split.
Qed.

Lemma current_price_is_last_point_witness :
  exists (st : Stats) (base : Q),
    stat_calculator sample_df = Ok st
    /\ get "price" (last (chart_formatter "7D" sample_df) (JDict []))
       = Some (JNum (current_price st))
    /\ get "price" (hd (JDict []) (chart_formatter "7D" sample_df)) = Some (JNum base)
    /\ percent_change st = (current_price st - base) / base * 100.
Proof.
  apply (current_price_is_last_point "7D" candle_a [candle_b; candle_c]).
  vm_compute. discriminate.
Defined.

Lemma series_max_app :
  forall (xs : list Q) (x y : Q),
    series_max x (xs ++ [y]) = Qmax (series_max x xs) y.
Proof.
  intros. unfold series_max. now rewrite fold_left_app.
Qed.

Lemma series_min_app :
  forall (xs : list Q) (x y : Q),
    series_min x (xs ++ [y]) = Qmin (series_min x xs) y.
Proof.
  intros. unfold series_min. now rewrite fold_left_app.
Qed.

(** X10: appending a candle to a series that has a summary gives a summary
    again: current_price becomes the new close, percent_change is taken from
    the same first close, high_price becomes the greater of the old
    high_price and the new high, low_price the lesser of the old low_price
    and the new low. *)
Theorem stat_calculator_append :
  forall (first : Candle) (rest : DataFrame) (c : Candle) (st : Stats),
    stat_calculator (first :: rest) = Ok st ->
    exists st' : Stats,
      stat_calculator (first :: rest ++ [c]) = Ok st'
      /\ current_price st' = Close c
      /\ percent_change st' = (Close c - Close first) / Close first * 100
      /\ high_price st' = Qmax (high_price st) (High c)
      /\ low_price st' = Qmin (low_price st) (Low c).
Proof.
  intros first rest c st Hst.
  pose proof (stat_calculator_ok_nonzero first rest st Hst) as Hnz.
  destruct (stat_calculator_inv first rest st Hst) as [Hhi Hlo].
  eexists. split; [apply (stat_calculator_value first (rest ++ [c])%list Hnz) |].
  cbn [current_price percent_change high_price low_price].
  change (first :: rest ++ [c])%list with ((first :: rest) ++ [c])%list.
  rewrite last_last, !map_app. cbn [map].
  rewrite series_max_app, series_min_app, Hhi, Hlo.
  repeat split.
Qed.

Lemma stat_calculator_append_witness :
  exists st' : Stats,
    stat_calculator [candle_a; candle_b; candle_c] = Ok st'
    /\ current_price st' = Close candle_c
    /\ percent_change st' = (Close candle_c - Close candle_a) / Close candle_a * 100
    /\ high_price st' = Qmax 120 (High candle_c)
    /\ low_price st' = Qmin 95 (Low candle_c).
Proof.
  apply (stat_calculator_append candle_a [candle_b] candle_c
           (mkStats 110 ((110 - 105) / 105 * 100) 120 95)).
  reflexivity.
Defined.

Local Close Scope Q_scope.

(** ** Status codes of the other endpoints *)

(** X11: the technical-analysis, tokenomics and news endpoints answer 200
    exactly when their service exists and its call returns, and 500 in every
    other case, whatever the service raised (an [HTTPException] with its own
    status code included) and also when the service is missing. *)
Theorem data_endpoints_status :
  forall (ts : option TechnicalAnalysisService) (tk : option TokenomicsService)
         (ns : option NewsService) (ticker interval_ coin_id : string) (amount : Q),
    status (serve (get_technical_analysis ts ticker interval_))
    = match ts with
      | Some svc =>
          match technical_analyze svc ticker interval_ with
          | Ok _ => 200%Z
          | Raise _ => 500%Z
          end
      | None => 500%Z
      end
    /\ status (serve (get_tokenomics tk coin_id amount))
       = match tk with
         | Some svc =>
             match tokenomics_analyze svc coin_id amount with
             | Ok _ => 200%Z
             | Raise _ => 500%Z
             end
         | None => 500%Z
         end
    /\ status (serve (get_news ns ticker))
       = match ns with
         | Some svc =>
             match get_news_sentiment svc ticker with
             | Ok _ => 200%Z
             | Raise _ => 500%Z
             end
         | None => 500%Z
         end.
Proof.
  intros ts tk ns ticker interval_ coin_id amount.
  unfold get_technical_analysis, get_tokenomics, get_news, attr, or_500.
  split; [| split].
  - destruct ts as [svc |]; [| reflexivity]. cbn [bind].
    destruct (technical_analyze svc ticker interval_); reflexivity.
  - destruct tk as [svc |]; [| reflexivity]. cbn [bind].
    destruct (tokenomics_analyze svc coin_id amount); reflexivity.
  - destruct ns as [svc |]; [| reflexivity]. cbn [bind].
    destruct (get_news_sentiment svc ticker); reflexivity.
Qed.

(** X12: POST /chat answers 503 exactly when the chat service is missing
    and 200 exactly when the service exists and [process_message] returns;
    otherwise it answers 500.  The service receives the four fields of the
    request unchanged and its value is the body of the 200 answer. *)
Theorem chat_status :
  forall (cs : option ChatService) (request : ChatRequest),
    (status (serve (chat cs request)) = 503%Z <-> cs = None)
    /\ (status (serve (chat cs request)) = 200%Z
        <-> exists svc response,
              cs = Some svc
              /\ process_message svc (message request) (user_name request)
                   (user_age request) (conversation_history request) = Ok response
              /\ serve (chat cs request) = JSONResponse 200 response)
    /\ (status (serve (chat cs request)) = 503%Z
        \/ status (serve (chat cs request)) = 200%Z
        \/ status (serve (chat cs request)) = 500%Z).
Proof.
  intros cs request. unfold chat, or_500.
  destruct cs as [svc |].
  - destruct (process_message svc _ _ _ _) as [response | e] eqn:Hp; cbn.
    + split; [split; discriminate |].
      split; [| right; now left].
      split; [| reflexivity].
      intros _. exists svc, response. repeat split. exact Hp.
    + split; [split; discriminate |].
      split; [| right; now right].
      split; [discriminate |].
      intros [svc' [response [Hsvc [Hok _]]]].
      injection Hsvc as <-. rewrite Hp in Hok. discriminate Hok.
  - cbn. split; [split; reflexivity |].
    split; [| now left].
    split; [discriminate |].
    intros [svc [response [Hsvc _]]]. discriminate Hsvc.
Qed.

(** X13: POST /chat/stream answers 503 exactly when the chat service is
    missing; when the service exists and [stream_message] returns, the answer
    is a 200 event stream of media type text/event-stream that carries the
    chunks of the service in their order; when the call raises, it is 500. *)
Theorem chat_stream_status :
  forall (cs : option ChatService) (request : ChatRequest),
    (status (serve (chat_stream cs request)) = 503%Z <-> cs = None)
    /\ (status (serve (chat_stream cs request)) = 200%Z
        <-> exists svc chunks,
              cs = Some svc
              /\ stream_message svc (message request) (user_name request)
                   (user_age request) (conversation_history request) = Ok chunks
              /\ serve (chat_stream cs request)
                 = EventStream 200 chunks "text/event-stream")
    /\ (status (serve (chat_stream cs request)) = 503%Z
        \/ status (serve (chat_stream cs request)) = 200%Z
        \/ status (serve (chat_stream cs request)) = 500%Z).
Proof.
  intros cs request. unfold chat_stream, or_500.
  destruct cs as [svc |].
  - destruct (stream_message svc _ _ _ _) as [chunks | e] eqn:Hp; cbn.
    + split; [split; discriminate |].
      split; [| right; now left].
      split; [| reflexivity].
      intros _. exists svc, chunks. repeat split. exact Hp.
    + split; [split; discriminate |].
      split; [| right; now right].
      split; [discriminate |].
      intros [svc' [chunks [Hsvc [Hok _]]]].
      injection Hsvc as <-. rewrite Hp in Hok. discriminate Hok.
  - cbn. split; [split; reflexivity |].
    split; [| now left].
    split; [discriminate |].
    intros [svc [chunks [Hsvc _]]]. discriminate Hsvc.
Qed.

(** ** Dates and labels *)

Lemma string_length_append :
  forall a b : string, String.length (a ++ b) = (String.length a + String.length b)%nat.
Proof.
  induction a as [| c a IH]; intro b; cbn; [reflexivity | now rewrite IH].
Qed.

Lemma pad_length : forall (w : nat) (n : N), String.length (pad w n) = w.
Proof.
  induction w as [| w IH]; intro n; cbn [pad String.length]; [reflexivity |].
  now rewrite IH.
Qed.

(** X14: [isoformat] is injective on timestamps in range: two candles with
    different timestamps never carry the same date string. *)
Theorem isoformat_injective :
  forall a b : Timestamp,
    valid a -> valid b -> isoformat a = isoformat b -> a = b.
Proof.
  intros a b Ha Hb Heq.
  pose proof (fromisoformat_isoformat a Ha) as Hpa.
  pose proof (fromisoformat_isoformat b Hb) as Hpb.
  rewrite Heq, Hpb in Hpa. now injection Hpa.
Qed.

Lemma isoformat_injective_witness :
  valid (march_3 14 5) /\ march_3 14 5 = march_3 14 5.
Proof.
  assert (H : valid (march_3 14 5)) by (apply valid_of_validb; reflexivity).
  split; [exact H |].
  exact (isoformat_injective (march_3 14 5) (march_3 14 5) H H eq_refl).
Defined.

(** X15: every date of a real history, read back, is exactly the timestamp
    of the candle at the same position. *)
Theorem history_dates_round_trip :
  forall (timeframe : string) (df : DataFrame),
    Forall (fun c => valid (index c)) df ->
    map date_of (chart_formatter timeframe df) = map (fun c => Some (index c)) df.
Proof.
  intros timeframe df Hvalid.
  rewrite chart_formatter_map, map_map.
  apply map_ext_in. intros row Hin.
  rewrite Forall_forall in Hvalid.
  now apply date_of_chart_point, Hvalid.
Qed.

Lemma history_dates_round_trip_witness :
  map date_of (chart_formatter "30D" sample_df)
  = [Some (march_3 14 5); Some (march_3 14 20); Some (march_3 14 35)].
Proof.
  exact (history_dates_round_trip "30D" sample_df sample_df_valid).
Defined.

(** X16: the date string of a timestamp in range has 19 characters when it
    has no sub-second part, 26 when it has microseconds only, and 29 when it
    has nanoseconds. *)
Theorem isoformat_length :
  forall t : Timestamp,
    valid t ->
    String.length (isoformat t)
    = if N.eqb (nanosecond t) 0
      then if N.eqb (microsecond t) 0 then 19%nat else 26%nat
      else 29%nat.
Proof.
  intros t Hvalid. rewrite (isoformat_canonical t Hvalid).
  rewrite !string_length_append, !pad_length. unfold fraction.
  destruct (N.eqb (nanosecond t) 0); destruct (N.eqb (microsecond t) 0);
    rewrite ?string_length_append, ?pad_length; reflexivity.
Qed.

Lemma isoformat_length_witness :
  String.length (isoformat (march_3 14 5)) = 19%nat.
Proof.
  apply (isoformat_length (march_3 14 5)).
  apply valid_of_validb. reflexivity.
Defined.

(** X17: the 30D label depends on the month and the day only, and the 24H
    label on the hour and the minute only: candles of the same day share
    their 30D label, candles at the same time of day their 24H label. *)
Theorem labels_ignore_fields :
  forall (t : Timestamp) (y mo d h mi s us ns : N),
    time_label "30D" (mkTimestamp y (month t) (day t) h mi s us ns) = time_label "30D" t
    /\ time_label "24H" (mkTimestamp y mo d (hour t) (minute t) s us ns)
       = time_label "24H" t
    /\ time_label "30D" (march_3 0 0) = time_label "30D" (march_3 4 0).
Proof.
  intros t y mo d h mi s us ns.
  rewrite !time_label_spec. repeat split.
Qed.

Lemma nth_abbr_length :
  forall (names : list string) (k : nat),
    Forall (fun s => String.length s = 3%nat) names ->
    (k < List.length names)%nat ->
    String.length (nth k names EmptyString) = 3%nat.
Proof.
  intros names k Hall Hk. rewrite Forall_forall in Hall.
  apply Hall, nth_In, Hk.
Qed.

Lemma day_abbr_length :
  forall t : Timestamp, String.length (weekday_abbr t) = 3%nat.
Proof.
  intro t. unfold weekday_abbr. apply nth_abbr_length.
  - repeat constructor.
  - unfold weekday. cbn [day_abbr List.length].
    pose proof (N.mod_lt (ymd2ord (year t) (month t) (day t) + 6) 7 ltac:(discriminate)).
    lia.
Qed.

Lemma month_abbr_length :
  forall t : Timestamp, valid t -> String.length (month_abbr_of t) = 3%nat.
Proof.
  intros t (_ & Hm & _). unfold month_abbr_of. apply nth_abbr_length.
  - repeat constructor.
  - cbn [month_abbr List.length]. lia.
Qed.

(** X18: for a timestamp in range the label has a fixed width: 5 characters
    for 24H, 9 for 7D, 6 for 30D and 11 for every other timeframe. *)
Theorem time_label_width :
  forall (timeframe : string) (t : Timestamp),
    valid t ->
    String.length (time_label timeframe t)
    = if String.eqb timeframe "24H" then 5%nat
      else if String.eqb timeframe "7D" then 9%nat
      else if String.eqb timeframe "30D" then 6%nat
      else 11%nat.
Proof.
  intros timeframe t Hvalid.
  pose proof (month_abbr_length t Hvalid) as Hmon.
  pose proof (day_abbr_length t) as Hday.
  pose proof (days_in_month_le_31 (year t) (month t)) as Hdim.
  destruct Hvalid as (Hy & Hm & Hd & Hh & Hmi & Hs & Hus & Hns).
  rewrite time_label_spec. unfold label_spec, hour_minute.
  rewrite (format_0d_pad 2 (hour t)) by (cbn; lia).
  rewrite (format_0d_pad 2 (minute t)) by (cbn; lia).
  rewrite (format_0d_pad 2 (day t)) by (cbn; lia).
  rewrite (format_0d_pad 4 (year t)) by (cbn; lia).
  destruct (String.eqb timeframe "24H");
    [| destruct (String.eqb timeframe "7D");
       [| destruct (String.eqb timeframe "30D")]];
    rewrite ?string_length_append, ?pad_length, ?Hmon, ?Hday; reflexivity.
Qed.

Lemma time_label_width_witness :
  String.length (time_label "7D" (march_3 14 5)) = 9%nat.
Proof.
  apply (time_label_width "7D" (march_3 14 5)).
  apply valid_of_validb. reflexivity.
Defined.

(** ** The resolved configuration *)

(** X19: whatever string is requested, the resolved interval is one of 15m,
    1h, 4h and 1d and the resolved limit lies between 96 and 365, below the
    1000 candles the exchange serves in one request. *)
Theorem resolved_config_bounds :
  forall timeframe : string,
    exists config : Config,
      resolve_timeframe timeframe = Ok config
      /\ In (interval config) ["15m"; "1h"; "4h"; "1d"]
      /\ (96 <= limit config <= 365)%Z
      /\ (limit config < 1000)%Z.
Proof.
  intro timeframe. exists (resolver_table timeframe).
  split; [apply resolve_timeframe_ok |].
  unfold resolver_table.
  destruct (String.eqb timeframe "24H");
    [| destruct (String.eqb timeframe "7D");
       [| destruct (String.eqb timeframe "30D");
          [| destruct (String.eqb timeframe "1Y")]]];
    cbn [interval limit In]; (split; [tauto | lia]).
Qed.
